(** * COVID-19 prediction service: feature encoders and request handler

    A shallow embedding of [app.py]: the feature schema [FEATURES], the two
    encoders [build_feature_vector_from_json] and
    [build_feature_vector_from_form], and the [/predict] handler.

    Conventions of the embedding.
    - A Python [str] is a [string] whose characters are the code points
      U+0000..U+00FF; the runtime's character classes, [str.strip],
      [str.lower], [repr] and the grammar accepted by [float(str)] are
      written out for that range.
    - A Python [float] is a value of an abstract carrier (class [PyFloat]):
      rounding to binary64 is left to the instance, so every theorem holds
      for every rounding.
    - Exceptions are values; code that can raise returns [result]. *)

From stdpp Require Import gmap strings list pretty.
From Stdlib Require Import Ascii String ZArith NArith QArith Lia Bool.

Local Open Scope string_scope.
Local Open Scope list_scope.

(** ** Characters *)

Module Char.

Definition ord (c : ascii) : N := N_of_ascii c.
Definition chr (n : N) : ascii := ascii_of_N n.

Definition between (lo hi : N) (c : ascii) : bool :=
  ((lo <=? ord c) && (ord c <=? hi))%N.

Definition code_is (n : N) (c : ascii) : bool := (ord c =? n)%N.

(** [Py_ISSPACE]: the C-locale white space used by the number parsers. *)
Definition Py_ISSPACE (c : ascii) : bool := between 9 13 c || code_is 32 c.

(** [Py_UNICODE_ISSPACE] below U+0100: what [str.strip] removes. *)
Definition Py_UNICODE_ISSPACE (c : ascii) : bool :=
  between 9 13 c || between 28 32 c || code_is 133 c || code_is 160 c.

Definition Py_ISDIGIT (c : ascii) : bool := between 48 57 c.

(** [Py_TOLOWER]: ASCII letters only. *)
Definition Py_TOLOWER (c : ascii) : ascii :=
  if between 65 90 c then chr (ord c + 32) else c.

(** [str.lower] on one code point below U+0100: ASCII and Latin-1 capitals
    (U+00D7, the multiplication sign, is not a letter). *)
Definition unicode_lower (c : ascii) : ascii :=
  if between 65 90 c || (between 192 222 c && negb (code_is 215 c))
  then chr (ord c + 32) else c.

(** [Py_UNICODE_ISPRINTABLE] below U+0100, as [repr] uses it. *)
Definition Py_UNICODE_ISPRINTABLE (c : ascii) : bool :=
  negb (between 0 31 c || between 127 160 c || code_is 173 c).

Definition hex_digit (n : N) : ascii :=
  if (n <? 10)%N then chr (48 + n) else chr (87 + n).

End Char.

(** ** Strings *)

Module Str.
Import Char.

Fixpoint drop_while (p : ascii -> bool) (l : list ascii) : list ascii :=
  match l with
  | [] => []
  | c :: r => if p c then drop_while p r else l
  end.

Definition drop_while_end (p : ascii -> bool) (l : list ascii) : list ascii :=
  rev (drop_while p (rev l)).

(** [s.strip()] *)
Definition strip_chars (l : list ascii) : list ascii :=
  drop_while_end Py_UNICODE_ISSPACE (drop_while Py_UNICODE_ISSPACE l).

Definition strip (s : string) : string :=
  string_of_list_ascii (strip_chars (list_ascii_of_string s)).

(** [s.lower()] *)
Definition lower (s : string) : string :=
  string_of_list_ascii (map unicode_lower (list_ascii_of_string s)).

(** [s in (a, b, ...)] for a tuple of strings. *)
Definition in_tuple (s : string) (t : list string) : bool :=
  existsb (String.eqb s) t.

(** [repr(s)] for a [str]. *)
Definition repr_char (quote : ascii) (c : ascii) : list ascii :=
  if Ascii.eqb c quote || code_is 92 c then ["\"%char; c]
  else if code_is 9 c then ["\"; "t"]%char
  else if code_is 10 c then ["\"; "n"]%char
  else if code_is 13 c then ["\"; "r"]%char
  else if Py_UNICODE_ISPRINTABLE c then [c]
  else ["\"%char; "x"%char; hex_digit (ord c / 16); hex_digit (ord c mod 16)].

Definition repr (s : string) : string :=
  let l := list_ascii_of_string s in
  let quote :=
    if existsb (code_is 39) l && negb (existsb (code_is 34) l) then chr 34 else chr 39 in
  string_of_list_ascii (quote :: flat_map (repr_char quote) l ++ [quote]).

End Str.

(** ** The grammar of [float(str)]

    [PyFloat_FromString] on a [str]: white space and decimal digits outside
    ASCII are first made ASCII, underscores between digits are removed,
    C-locale white space is stripped at both ends, and the rest must be, in
    full, a decimal literal or a spelling of infinity or NaN. *)

Module FloatSyntax.
Import Char Str.

(** What a well-formed literal denotes, before rounding. *)
Inductive literal : Type :=
| LDecimal (neg : bool) (mantissa : N) (exponent : Z)
    (* (-1)^neg * mantissa * 10^exponent *)
| LInf (neg : bool)
| LNan (neg : bool).

(** [_PyUnicode_TransformDecimalAndSpaceToASCII] *)
Fixpoint transform_loop (l : list ascii) : list ascii :=
  match l with
  | [] => []
  | c :: r =>
      if (ord c <? 127)%N then c :: transform_loop r
      else if Py_UNICODE_ISSPACE c then " "%char :: transform_loop r
      else ["?"%char]
        (* no code point in U+007F..U+00FF is a decimal digit *)
  end.

Definition is_ascii (l : list ascii) : bool :=
  forallb (fun c => (ord c <? 128)%N) l.

Definition transform_decimal_and_space (l : list ascii) : list ascii :=
  if is_ascii l then l else transform_loop l.

(** The underscore pass of [_Py_string_to_number_with_underscores]:
    [prev] is the previous character of the input. *)
Fixpoint remove_underscores (prev : ascii) (l : list ascii)
  : option (list ascii) :=
  match l with
  | [] => if code_is 95 prev then None else Some []
  | c :: r =>
      if code_is 95 c then
        if Py_ISDIGIT prev then remove_underscores c r else None
      else if code_is 95 prev && negb (Py_ISDIGIT c) then None
      else option_map (cons c) (remove_underscores c r)
  end.

Fixpoint span_digits (l : list ascii) : list ascii * list ascii :=
  match l with
  | [] => ([], [])
  | c :: r =>
      if Py_ISDIGIT c then let (d, rest) := span_digits r in (c :: d, rest)
      else ([], l)
  end.

Definition digits_value (d : list ascii) : N :=
  fold_left (fun acc c => (10 * acc + (ord c - 48))%N) d 0%N.

Definition parse_sign (l : list ascii) : bool * list ascii :=
  match l with
  | c :: r => if code_is 45 c then (true, r) else if code_is 43 c then (false, r)
              else (false, l)
  | [] => (false, l)
  end.

Definition is_nil {A} (l : list A) : bool :=
  match l with [] => true | _ => false end.

(** The exponent part: consumed only when it has a digit. *)
Definition parse_exponent (l : list ascii) : Z * list ascii :=
  match l with
  | c :: r =>
      if code_is 101 c || code_is 69 c then
        let (eneg, r1) := parse_sign r in
        let (ed, r2) := span_digits r1 in
        if is_nil ed then (0%Z, l)
        else ((if eneg then - Z.of_N (digits_value ed)
               else Z.of_N (digits_value ed))%Z, r2)
      else (0%Z, l)
  | [] => (0%Z, l)
  end.

(** [_Py_dg_strtod]: the longest decimal literal at the head of [l], and
    what follows it. *)
Definition dg_strtod (l : list ascii) : option (literal * list ascii) :=
  let (neg, l1) := parse_sign l in
  let (ip, l2) := span_digits l1 in
  let (fp, l3) :=
    match l2 with
    | c :: r => if code_is 46 c then span_digits r else ([], l2)
    | [] => ([], l2)
    end in
  if is_nil ip && is_nil fp then None
  else
    let (e, l4) := parse_exponent l3 in
    Some (LDecimal neg (digits_value (ip ++ fp))
            (e - Z.of_nat (List.length fp)), l4).

Fixpoint case_insensitive_match (s t : list ascii) : bool :=
  match t with
  | [] => true
  | ct :: t' =>
      match s with
      | cs :: s' => Ascii.eqb (Py_TOLOWER cs) ct && case_insensitive_match s' t'
      | [] => false
      end
  end.

(** [_Py_parse_inf_or_nan] *)
Definition parse_inf_or_nan (l : list ascii) : option (literal * list ascii) :=
  let (neg, s) := parse_sign l in
  if case_insensitive_match s (list_ascii_of_string "inf") then
    let s3 := skipn 3 s in
    if case_insensitive_match s3 (list_ascii_of_string "inity")
    then Some (LInf neg, skipn 5 s3)
    else Some (LInf neg, s3)
  else if case_insensitive_match s (list_ascii_of_string "nan") then
    Some (LNan neg, skipn 3 s)
  else None.

(** [_PyOS_ascii_strtod] *)
Definition ascii_strtod (l : list ascii) : option (literal * list ascii) :=
  match dg_strtod l with
  | Some r => Some r
  | None => parse_inf_or_nan l
  end.

(** [float_from_string_inner]: strip, parse, and insist that the parse
    ends where the string does. *)
Definition float_from_string_inner (l : list ascii) : option literal :=
  match drop_while Py_ISSPACE l with
  | [] => None
  | c :: r =>
      match ascii_strtod (c :: drop_while_end Py_ISSPACE r) with
      | Some (x, []) => Some x
      | _ => None
      end
  end.

Definition string_to_number_with_underscores (l : list ascii)
  : option literal :=
  if negb (existsb (code_is 95) l) then float_from_string_inner l
  else
    match remove_underscores (chr 0) l with
    | None => None
    | Some dup =>
        if existsb (code_is 0) dup then None else float_from_string_inner dup
    end.

(** [float(s)] up to rounding: [None] is [ValueError]. *)
Definition parse (s : string) : option literal :=
  string_to_number_with_underscores
    (transform_decimal_and_space (list_ascii_of_string s)).

End FloatSyntax.

(** ** Python values, exceptions and floats *)

Inductive exn_class : Type := ValueError | OverflowError | TypeError | OtherError.

(** An exception: its class and [str(e)]. *)
Inductive exn : Type := Exn (cls : exn_class) (text : string).

Definition str_exn (e : exn) : string := let 'Exn _ text := e in text.

(** The outcome of code that may raise. *)
Inductive result (A : Type) : Type :=
| Ok (a : A)
| Raise (e : exn).
Arguments Ok {A} a.
Arguments Raise {A} e.

Definition bind {A B} (r : result A) (k : A -> result B) : result B :=
  match r with
  | Ok a => k a
  | Raise e => Raise e
  end.

Declare Scope result_scope.
Delimit Scope result_scope with result.
Notation "'let*' x := r 'in' k" := (bind r (fun x => k))
  (at level 10, x name, r at level 100, k at level 200) : result_scope.

(** [try: body / except ValueError: handler] *)
Definition try_except_ValueError {A} (body : result A) (handler : result A)
  : result A :=
  match body with
  | Raise (Exn ValueError _) => handler
  | r => r
  end.

Fixpoint mapM {A B} (f : A -> result B) (l : list A) : result (list B) :=
  match l with
  | [] => Ok []
  | a :: l' =>
      (let* b := f a in let* bs := mapM f l' in Ok (b :: bs))%result
  end.

(** The binary64 arithmetic of the runtime. [float_of_decimal neg q] is the
    double nearest to [(-1)^neg * q] (an infinity when out of range);
    [format_2f x] is [f"{x:.2f}"]. *)
Class PyFloat : Type := {
  float : Type;
  float_of_decimal : bool -> Q -> float;
  float_inf : bool -> float;
  float_nan : bool -> float;
  format_2f : float -> string
}.

Section Values.
Context `{PF : PyFloat}.
Import FloatSyntax.

(** The Python objects a JSON object of this service carries as values:
    booleans, numbers and strings. *)
Inductive pyval : Type :=
| PBool (b : bool)
| PInt (z : Z)
| PFloat (x : float)
| PStr (s : string).

(** The literals [0.0] and [1.0]. *)
Definition f_zero : float := float_of_decimal false 0%Q.
Definition f_one : float := float_of_decimal false 1%Q.

Definition literal_magnitude (m : N) (e : Z) : Q :=
  Qred (if (0 <=? e)%Z then inject_Z (Z.of_N m * 10 ^ e)
        else Qmake (Z.of_N m) (Z.to_pos (10 ^ (- e)))).

Definition float_of_literal (x : literal) : float :=
  match x with
  | LDecimal neg m e => float_of_decimal neg (literal_magnitude m e)
  | LInf neg => float_inf neg
  | LNan neg => float_nan neg
  end.

(** [float(s)] for a [str]. *)
Definition float_of_str (s : string) : result float :=
  match parse s with
  | Some x => Ok (float_of_literal x)
  | None =>
      Raise (Exn ValueError ("could not convert string to float: " ++ Str.repr s))
  end.

(** [float(z)] for an [int]: rounds to nearest, raises beyond the range. *)
Definition float_of_int (z : Z) : result float :=
  if (2 ^ 1024 - 2 ^ 970 <=? Z.abs z)%Z
  then Raise (Exn OverflowError "int too large to convert to float")
  else Ok (float_of_decimal (z <? 0)%Z (inject_Z (Z.abs z))).

(** One element of [np.array(..., dtype=float)]. *)
Definition np_float (v : pyval) : result float :=
  match v with
  | PBool b => Ok (if b then f_one else f_zero)
  | PInt z => float_of_int z
  | PFloat x => Ok x
  | PStr s => float_of_str s
  end.

(** [np.array([vals], dtype=float)]: the single row of the array. *)
Definition np_array_float (vals : list pyval) : result (list float) :=
  mapM np_float vals.

End Values.

(** ** The feature schema *)

(** Feature order MUST match the order used during training *)
Definition FEATURES : list string := [
    "Sex";
    "Birth Year";
    "Chest pain";
    "Chills or sweats";
    "Confused or disoriented";
    "Cough";
    "Diarrhea";
    "Difficulty breathing or Dyspnea";
    "Fatigue or general weakness";
    "Fever";
    "Fluid in lung cavity in auscultation";
    "Fluid in cavity through X-Ray";
    "Headache";
    "Joint pain or arthritis";
    "Thorax (sore throat)";
    "Muscle pain";
    "Nausea";
    "Other clinical symptoms";
    "Rapid breathing";
    "Runny nose";
    "Maculopapular rash";
    "Sore throat or pharyngitis";
    "Bleeding or bruising";
    "Vomiting";
    "Abnormal lung X-Ray findings";
    "Conjunctivitis";
    "Acute respiratory distress syndrome";
    "Pneumonia (clinical or radiologic)";
    "Loss of Taste";
    "Loss of Smell";
    "Cough with sputum";
    "Cough with heamoptysis";
    "Enlarged lymph nodes";
    "Wheezing";
    "Skin ulcers";
    "Inability to walk";
    "Indrawing of chest wall";
    "Other complications"
  ].

(** ** The encoders *)

Section Encoders.
Context `{PF : PyFloat}.

(** [vals.append(x)] inside [for feat in FEATURES]. *)
Definition for_features {S} (step : string -> S -> S) (init : S) : S :=
  fold_left (fun vals feat => step feat vals) FEATURES init.

Definition build_feature_vector_from_json (json_data : gmap string pyval)
  : result (list float) :=
  let vals :=
    for_features
      (fun feat vals =>
         match json_data !! feat with
         | Some v => vals ++ [v]         (* if feat in json_data *)
         | None => vals ++ [PInt 0]
         end) [] in
  np_array_float vals.

(** [form.get(key, None)]: the first value submitted under [key]. *)
Fixpoint form_get (form : list (string * string)) (key : string)
  : option string :=
  match form with
  | [] => None
  | (k, v) :: rest => if String.eqb k key then Some v else form_get rest key
  end.

(** The [except ValueError] arm of the form encoder. *)
Definition lexical_fallback (raw : string) : float :=
  let s := Str.lower (Str.strip raw) in
  if Str.in_tuple s ["male"; "m"; "1"] then f_one
  else if Str.in_tuple s ["female"; "f"; "0"] then f_zero
  else if Str.in_tuple s ["yes"; "y"; "true"; "1"] then f_one
  else f_zero.

Definition build_feature_vector_from_form (form : list (string * string))
  : result (list float) :=
  (let* vals :=
     for_features
       (fun feat acc =>
          let* vals := acc in
          match form_get form feat with
          | None => Ok (vals ++ [PInt 0])
          | Some raw =>
              if String.eqb raw "" then Ok (vals ++ [PInt 0])
              else
                try_except_ValueError
                  (let* x := float_of_str raw in Ok (vals ++ [PFloat x]))
                  (Ok (vals ++ [PFloat (lexical_fallback raw)]))
          end) (Ok []) in
   np_array_float vals)%result.

End Encoders.

(** ** The [/predict] handler *)

Section Handler.
Context `{PF : PyFloat}.

(** The pre-trained model, as the handler uses it:
    [model.predict(X)[0]] and [float(model.predict_proba(X)[0][1])].
    Either call may raise. *)
Record classifier : Type := {
  model_predict : list float -> result Z;
  model_predict_proba : list float -> result float
}.

(** What the handler reads of a request. [parsed_json] is what the JSON
    parser makes of the body, [None] when the body is not well-formed
    JSON; a well-formed body is an object. *)
Record request : Type := {
  is_json : bool;                          (* request.is_json *)
  parsed_json : option (gmap string pyval);
  form : list (string * string)            (* request.form *)
}.

(** [request.get_json(silent=True)]: [None] unless the request declares a
    JSON content type and the body parses. *)
Definition get_json_silent (req : request) : option (gmap string pyval) :=
  if is_json req then parsed_json req else None.

Inductive json_value : Type :=
| JString (s : string)
| JNumber (x : float).

Inductive response : Type :=
| Jsonify (body : list (string * json_value)) (status : Z)
| RenderTemplate (template : string) (prediction_text : string).

(** The calls the handler makes to its collaborators, in order. *)
Inductive event : Type :=
| CallJsonEncoder
| CallFormEncoder
| CallPredict (X : list float)
| CallPredictProba (X : list float).

(** A computation that may raise and records the calls it made. *)
Definition traced (A : Type) : Type := (result A * list event)%type.

Definition ret {A} (a : A) : traced A := (Ok a, []).

Definition call {A} (ev : event) (r : result A) : traced A := (r, [ev]).

Definition tbind {A B} (m : traced A) (k : A -> traced B) : traced B :=
  match m with
  | (Ok a, t) => let (r, t') := k a in (r, t ++ t')
  | (Raise e, t) => (Raise e, t)
  end.

Notation "'let!' x := m 'in' k" := (tbind m (fun x => k))
  (at level 10, x name, m at level 100, k at level 200).

Definition message_of (pred : Z) : string :=
  if (pred =? 0)%Z then "You have not contracted COVID-19"
  else "You most likely have contracted COVID-19".

Definition prediction_text (message : string) (proba : float) : string :=
  message ++ " (Probability: " ++ format_2f proba ++ ")".

(** The body of the [if json_data:] arm. *)
Definition json_branch (model : classifier) (req : request)
    (json_data : gmap string pyval) : traced response :=
  let! X := call CallJsonEncoder (build_feature_vector_from_json json_data) in
  let! pred := call (CallPredict X) (model_predict model X) in
  let! proba := call (CallPredictProba X) (model_predict_proba model X) in
  let message := message_of pred in
  if is_json req then
    ret (Jsonify [("prediction", JString message);
                  ("probability", JNumber proba)] 200)
  else ret (RenderTemplate "index.html" (prediction_text message proba)).

(** The code after the [if]: the form POST. *)
Definition form_branch (model : classifier) (req : request) : traced response :=
  let! X := call CallFormEncoder (build_feature_vector_from_form (form req)) in
  let! pred := call (CallPredict X) (model_predict model X) in
  let! proba := call (CallPredictProba X) (model_predict_proba model X) in
  let message := message_of pred in
  ret (RenderTemplate "index.html" (prediction_text message proba)).

(** [except Exception as e] *)
Definition error_response (req : request) (e : exn) : response :=
  if is_json req then Jsonify [("error", JString (str_exn e))] 400
  else RenderTemplate "index.html" ("Error: " ++ str_exn e).

(** The truth value of [json_data]: [None] and the empty dict are false. *)
Definition truthy (json_data : option (gmap string pyval)) : bool :=
  match json_data with
  | None => false
  | Some d => negb (bool_decide (d = ∅))
  end.

Definition try_body (model : classifier) (req : request) : traced response :=
  let json_data := get_json_silent req in
  match json_data with
  | Some d => if truthy json_data then json_branch model req d
              else form_branch model req
  | None => form_branch model req
  end.

Definition predict (model : classifier) (req : request)
  : response * list event :=
  match try_body model req with
  | (Ok resp, trace) => (resp, trace)
  | (Raise e, trace) => (error_response req e, trace)
  end.

End Handler.

(** ** An instance of the float interface

    Floats as the exact values they were built from; used to evaluate the
    definitions on concrete inputs. *)

Module Exact.

Inductive xfloat : Type :=
| XFinite (neg : bool) (q : Q)
| XInf (neg : bool)
| XNan (neg : bool).

(** Nearest integer to a non-negative rational, ties to even. *)
Definition round_half_even (q : Q) : Z :=
  let n := Qnum q in
  let d := Zpos (Qden q) in
  let fl := (n / d)%Z in
  let r2 := (2 * (n mod d))%Z in
  if (r2 <? d)%Z then fl
  else if (d <? r2)%Z then (fl + 1)%Z
  else if Z.even fl then fl else (fl + 1)%Z.

Definition two_digits (n : Z) : string :=
  (if (n <? 10)%Z then "0" else "") ++ pretty n.

Definition format_2f_exact (x : xfloat) : string :=
  match x with
  | XFinite neg q =>
      let h := round_half_even (Qmult q (inject_Z 100)) in
      (if neg then "-" else "") ++ pretty (h / 100)%Z ++ "."
        ++ two_digits (h mod 100)%Z
  | XInf neg => if neg then "-inf" else "inf"
  | XNan _ => "nan"
  end.

#[export] Instance exact_float : PyFloat := {|
  float := xfloat;
  float_of_decimal := XFinite;
  float_inf := XInf;
  float_nan := XNan;
  format_2f := format_2f_exact
|}.

(** Inputs on which the definitions are evaluated below. *)

(** A classifier that answers label 1 with probability [p] for every
    vector. *)
Definition constant_model (p : Q) : classifier := {|
  model_predict := fun _ => Ok 1%Z;
  model_predict_proba := fun _ => Ok (XFinite false p)
|}.

(** A browser POST with the given fields. *)
Definition form_request (fields : list (string * string)) : request :=
  {| is_json := false; parsed_json := None; form := fields |}.

(** An API POST whose body parses to the object [d]. *)
Definition json_request (d : gmap string pyval) : request :=
  {| is_json := true; parsed_json := Some d; form := [] |}.

(** The two-character string U+001F, "1". *)
Definition unit_separator_one : string := String (Char.chr 31) "1".

Definition zero : xfloat := XFinite false 0.
Definition one : xfloat := XFinite false 1.

End Exact.

(** ** What the specification says of each slot *)

Section SlotSpec.
Context `{PF : PyFloat}.

(** The object the JSON encoder appends for [feat]. *)
Definition json_slot (json_data : gmap string pyval) (feat : string) : pyval :=
  match json_data !! feat with
  | Some v => v
  | None => PInt 0
  end.

(** The object the form encoder appends for [feat]. *)
Definition form_slot (form : list (string * string)) (feat : string) : pyval :=
  match form_get form feat with
  | None => PInt 0
  | Some raw =>
      if String.eqb raw "" then PInt 0
      else match FloatSyntax.parse raw with
           | Some x => PFloat (float_of_literal x)
           | None => PFloat (lexical_fallback raw)
           end
  end.

(** The float at a form slot. *)
Definition form_float (form : list (string * string)) (feat : string) : float :=
  match form_slot form feat with
  | PFloat x => x
  | _ => f_zero
  end.

(** The form rule in the specification's words: absent or empty gives 0;
    a value that parses as a float gives that float; otherwise the
    trimmed, lower-cased value is looked up in the lexical table. *)
Definition form_slot_spec (form : list (string * string)) (feat : string)
  : float :=
  match form_get form feat with
  | None => f_zero
  | Some raw =>
      if String.eqb raw "" then f_zero
      else
        match FloatSyntax.parse raw with
        | Some x => float_of_literal x
        | None =>
            let s := Str.lower (Str.strip raw) in
            if Str.in_tuple s ["male"; "m"; "1"]
               || Str.in_tuple s ["yes"; "y"; "true"; "1"] then f_one
            else if Str.in_tuple s ["female"; "f"; "0"] then f_zero
            else f_zero
        end
  end.

(** The vector the handler encodes for a request, by the branch it takes. *)
Definition encode_request (req : request) : result (list float) :=
  match get_json_silent req with
  | Some d => if truthy (Some d) then build_feature_vector_from_json d
              else build_feature_vector_from_form (form req)
  | None => build_feature_vector_from_form (form req)
  end.

End SlotSpec.

(** ** Start-up: the listening port

    [int(os.environ.get("PORT", 5000))], the argument of [app.run]. *)

Module IntSyntax.
Import Char Str FloatSyntax.

(** [sys.get_int_max_str_digits()], at its default. *)
Definition max_str_digits : nat := 4300.

(** The scan of [long_from_non_binary_base] for base 10: digits, with
    single underscores between them. [prev] is the previous character;
    the result is the digits read and what follows them. *)
Fixpoint scan_digits (prev : ascii) (l : list ascii)
  : option (list ascii * list ascii) :=
  match l with
  | c :: r =>
      if code_is 95 c then
        if code_is 95 prev then None else scan_digits c r
      else if Py_ISDIGIT c then
        match scan_digits c r with
        | Some (d, rest) => Some (c :: d, rest)
        | None => None
        end
      else if code_is 95 prev then None else Some ([], l)
  | [] => if code_is 95 prev then None else Some ([], [])
  end.

(** [PyLong_FromString(s, &end, 10)] on the ASCII buffer, with the check
    of [PyLong_FromUnicodeObject] that the whole buffer was read. *)
Definition long_from_string (l : list ascii) : option Z :=
  let (neg, s) := parse_sign (drop_while Py_ISSPACE l) in
  match s with
  | [] => None
  | c :: _ =>
      if code_is 95 c then None
      else
        match scan_digits (chr 0) s with
        | None => None
        | Some (d, rest) =>
            if is_nil d then None
            else if (max_str_digits <? List.length d)%nat then None
            else if is_nil (drop_while Py_ISSPACE rest) then
              Some (if neg then (- Z.of_N (digits_value d))%Z
                    else Z.of_N (digits_value d))
            else None
        end
  end.

(** [int(s)] for a [str]: [None] is [ValueError]. *)
Definition parse_int (s : string) : option Z :=
  long_from_string (transform_decimal_and_space (list_ascii_of_string s)).

End IntSyntax.

(** The port the server listens on, given the value of the environment
    variable [PORT] ([None] when it is not set). The outcome [None] is the
    [ValueError] of [int], which ends the process before it serves. *)
Definition listen_port (env_port : option string) : option Z :=
  match env_port with
  | None => Some 5000%Z                 (* int(5000) *)
  | Some s => IntSyntax.parse_int s
  end.

(** * Properties *)

(** ** Lists and the error monad *)

Section ListFacts.
Context {A B : Type}.

Lemma lookup_map (g : A -> B) (l : list A) (i : nat) :
  map g l !! i = option_map g (l !! i).
Proof.
  revert i; induction l as [|a l IH]; intros [|i]; simpl; auto.
Qed.

Lemma mapM_total (f : A -> result B) (g : A -> B) (l : list A) :
  (forall a, In a l -> f a = Ok (g a)) -> mapM f l = Ok (map g l).
Proof.
  induction l as [|a l IH]; intros H; simpl; [reflexivity|].
  rewrite (H a) by (now left). simpl.
  rewrite IH by (intros; apply H; now right). reflexivity.
Qed.

Lemma mapM_Ok (f : A -> result B) (l : list A) (v : list B) :
  mapM f l = Ok v -> Forall2 (fun a b => f a = Ok b) l v.
Proof.
  revert v; induction l as [|a l IH]; intros v; simpl.
  - intros [= <-]. constructor.
  - destruct (f a) as [b|e] eqn:Ha; simpl; [|discriminate].
    destruct (mapM f l) as [bs|e]; simpl; [|discriminate].
    intros [= <-]. constructor; auto.
Qed.

Lemma mapM_Raise (f : A -> result B) (l : list A) (a : A) (e : exn) :
  In a l -> f a = Raise e -> exists e', mapM f l = Raise e'.
Proof.
  induction l as [|a0 l IH]; simpl; [tauto|].
  intros [->|Hin] Ha.
  - rewrite Ha. simpl. eauto.
  - destruct (f a0); simpl; eauto.
    destruct (IH Hin Ha) as [e' ->]. simpl. eauto.
Qed.

Lemma Forall2_lookup_l (R : A -> B -> Prop) (l : list A) (v : list B)
    (i : nat) (a : A) :
  Forall2 R l v -> l !! i = Some a -> exists b, v !! i = Some b /\ R a b.
Proof.
  intros H; revert i; induction H as [|x y l v Hxy _ IH]; intros [|i]; simpl;
    try discriminate.
  - intros [= ->]. eauto.
  - apply IH.
Qed.

End ListFacts.

(** ** The encoders, slot by slot *)

Section EncoderFacts.
Context `{PF : PyFloat}.

Lemma np_float_zero : np_float (PInt 0) = Ok f_zero.
Proof. reflexivity. Qed.

Lemma json_loop (json_data : gmap string pyval) (l : list string)
    (init : list pyval) :
  fold_left
    (fun vals feat =>
       match json_data !! feat with
       | Some v => vals ++ [v]
       | None => vals ++ [PInt 0]
       end) l init
  = init ++ map (json_slot json_data) l.
Proof.
  revert init; induction l as [|feat l IH]; intros init; simpl.
  - now rewrite app_nil_r.
  - rewrite IH. unfold json_slot at 2.
    destruct (json_data !! feat); now rewrite <- app_assoc.
Qed.

Lemma json_vals_eq (json_data : gmap string pyval) :
  build_feature_vector_from_json json_data
  = np_array_float (map (json_slot json_data) FEATURES).
Proof.
  unfold build_feature_vector_from_json, for_features.
  rewrite json_loop. reflexivity.
Qed.

Lemma form_loop (form : list (string * string)) (l : list string)
    (init : list pyval) :
  fold_left
    (fun acc feat =>
       (let* vals := acc in
        match form_get form feat with
        | None => Ok (vals ++ [PInt 0])
        | Some raw =>
            if String.eqb raw "" then Ok (vals ++ [PInt 0])
            else
              try_except_ValueError
                (let* x := float_of_str raw in Ok (vals ++ [PFloat x]))
                (Ok (vals ++ [PFloat (lexical_fallback raw)]))
        end)%result) l (Ok init)
  = Ok (init ++ map (form_slot form) l).
Proof.
  revert init; induction l as [|feat l IH]; intros init; simpl.
  - now rewrite app_nil_r.
  - assert (Hstep :
      match form_get form feat with
      | None => Ok (init ++ [PInt 0])
      | Some raw =>
          if String.eqb raw "" then Ok (init ++ [PInt 0])
          else
            try_except_ValueError
              (let* x := float_of_str raw in Ok (init ++ [PFloat x]))%result
              (Ok (init ++ [PFloat (lexical_fallback raw)]))
      end = Ok (init ++ [form_slot form feat])).
    { unfold form_slot, float_of_str.
      destruct (form_get form feat) as [raw|]; [|reflexivity].
      destruct (String.eqb raw ""); [reflexivity|].
      now destruct (FloatSyntax.parse raw). }
    rewrite Hstep, IH, <- app_assoc. reflexivity.
Qed.

Lemma form_vals_eq (form : list (string * string)) :
  build_feature_vector_from_form form
  = np_array_float (map (form_slot form) FEATURES).
Proof.
  unfold build_feature_vector_from_form, for_features.
  rewrite form_loop. reflexivity.
Qed.

Lemma np_float_form_slot form feat :
  np_float (form_slot form feat) = Ok (form_float form feat).
Proof.
  unfold form_float, form_slot.
  destruct (form_get form feat) as [raw|]; [|reflexivity].
  destruct (String.eqb raw ""); [reflexivity|].
  now destruct (FloatSyntax.parse raw).
Qed.

Lemma form_encoder_total (form : list (string * string)) :
  build_feature_vector_from_form form = Ok (map (form_float form) FEATURES).
Proof.
  rewrite form_vals_eq. unfold np_array_float.
  rewrite (mapM_total np_float
             (fun v => match v with PFloat x => x | _ => f_zero end)).
  - now rewrite map_map.
  - intros v Hin. apply in_map_iff in Hin as [feat [<- _]].
    apply np_float_form_slot.
Qed.

Lemma FEATURES_length : List.length FEATURES = 38%nat.
Proof. reflexivity. Qed.

End EncoderFacts.

Section EncoderClaims.
Context `{PF : PyFloat}.
Import Str.

Lemma Forall2_map_l {A B C} (R : B -> C -> Prop) (g : A -> B)
    (l : list A) (v : list C) :
  Forall2 R (map g l) v -> Forall2 (fun a c => R (g a) c) l v.
Proof.
  revert v; induction l as [|a l IH]; intros v H; inversion H; subst;
    constructor; auto.
Qed.

Lemma json_encoder_Ok json_data v :
  build_feature_vector_from_json json_data = Ok v ->
  Forall2 (fun feat x => np_float (json_slot json_data feat) = Ok x) FEATURES v.
Proof.
  rewrite json_vals_eq. intros H. apply mapM_Ok in H.
  now apply Forall2_map_l in H.
Qed.

(** The two orders in which the lexical table can be read agree: no
    string is both in the "female" row and in the "yes" row. *)
Lemma lexical_fallback_rows (raw : string) :
  lexical_fallback raw =
  let s := lower (strip raw) in
  if in_tuple s ["male"; "m"; "1"] || in_tuple s ["yes"; "y"; "true"; "1"]
  then f_one
  else if in_tuple s ["female"; "f"; "0"] then f_zero
  else f_zero.
Proof.
  unfold lexical_fallback. cbv zeta. generalize (lower (strip raw)) as s.
  intros s. destruct (in_tuple s ["male"; "m"; "1"]) eqn:Hm; [reflexivity|].
  destruct (in_tuple s ["female"; "f"; "0"]) eqn:Hf.
  - unfold in_tuple in Hf. simpl in Hf.
    destruct (String.eqb_spec s "female") as [->|_]; [reflexivity|].
    destruct (String.eqb_spec s "f") as [->|_]; [reflexivity|].
    destruct (String.eqb_spec s "0") as [->|_]; [reflexivity|discriminate].
  - simpl. now destruct (in_tuple s ["yes"; "y"; "true"; "1"]).
Qed.

Lemma form_float_spec form feat :
  form_float form feat = form_slot_spec form feat.
Proof.
  unfold form_float, form_slot, form_slot_spec.
  destruct (form_get form feat) as [raw|]; [|reflexivity].
  destruct (String.eqb raw ""); [reflexivity|].
  destruct (FloatSyntax.parse raw); [reflexivity|].
  apply lexical_fallback_rows.
Qed.

Lemma lexical_fallback_binary (raw : string) :
  lexical_fallback raw = f_one \/ lexical_fallback raw = f_zero.
Proof.
  unfold lexical_fallback. cbv zeta.
  repeat match goal with |- context [if ?b then _ else _] => destruct b end;
    auto.
Qed.

(** C1 (amended). The schema has 38 slots, and the vector has exactly 38
    positions, one per slot in schema order, however many keys the caller
    supplied: the form encoder always returns such a vector, the JSON
    encoder whenever it returns one. *)
Theorem C1_vector_has_one_position_per_slot :
  List.length FEATURES = 38%nat /\
  (forall form, exists v,
      build_feature_vector_from_form form = Ok v /\
      List.length v = 38%nat /\
      Forall2 (fun feat x => np_float (form_slot form feat) = Ok x)
        FEATURES v) /\
  (forall json_data v,
      build_feature_vector_from_json json_data = Ok v ->
      List.length v = 38%nat /\
      Forall2 (fun feat x => np_float (json_slot json_data feat) = Ok x)
        FEATURES v).
Proof.
  split; [reflexivity|]. split.
  - intros form. exists (map (form_float form) FEATURES).
    split; [apply form_encoder_total|]. split.
    + now rewrite length_map.
    + induction FEATURES as [|feat l IH]; simpl; constructor; auto.
      apply np_float_form_slot.
  - intros json_data v H. apply json_encoder_Ok in H. split; [|exact H].
    apply Forall2_length in H. rewrite <- H. reflexivity.
Qed.

(** C2. In the vector of the form encoder, the position of each schema
    slot holds 0 when the key is absent or its value is empty, the parsed
    number when the value parses as a float, and otherwise the entry of
    the lexical table for the trimmed, lower-cased value; the form
    [{"Sex": "Male"}] gives 1.0 at "Sex" and 0 elsewhere, and an empty
    "Cough" gives 0 at "Cough". *)
Theorem C2_form_encoder_slot_rule :
  (forall form i feat,
      FEATURES !! i = Some feat ->
      exists v, build_feature_vector_from_form form = Ok v /\
                v !! i = Some (form_slot_spec form feat)) /\
  build_feature_vector_from_form [("Sex", "Male")]
    = Ok (f_one :: repeat f_zero 37) /\
  (exists v, build_feature_vector_from_form [("Cough", "")] = Ok v /\
             FEATURES !! 5%nat = Some "Cough" /\ v !! 5%nat = Some f_zero).
Proof.
  split; [|split].
  - intros form i feat Hi. exists (map (form_float form) FEATURES).
    split; [apply form_encoder_total|].
    rewrite lookup_map, Hi. simpl. now rewrite form_float_spec.
  - rewrite form_encoder_total. reflexivity.
  - eexists. split; [apply form_encoder_total|]. split; reflexivity.
Qed.

(** C3 (amended). When the JSON encoder returns a vector, the position of
    each schema slot holds the supplied value converted to float (a float
    is kept as it is) when the mapping has the feature name, and 0.0 when
    it has not; a key outside the schema has no effect on the outcome. *)
Theorem C3_json_encoder_slot_rule :
  (forall json_data v i feat,
      build_feature_vector_from_json json_data = Ok v ->
      FEATURES !! i = Some feat ->
      match json_data !! feat with
      | Some val => exists x, v !! i = Some x /\ np_float val = Ok x
      | None => v !! i = Some f_zero
      end) /\
  (forall json_data v i feat x,
      build_feature_vector_from_json json_data = Ok v ->
      FEATURES !! i = Some feat ->
      json_data !! feat = Some (PFloat x) ->
      v !! i = Some x) /\
  (forall json_data k val,
      ~ In k FEATURES ->
      build_feature_vector_from_json (<[k := val]> json_data)
      = build_feature_vector_from_json json_data).
Proof.
  assert (Hslot : forall json_data v i feat,
             build_feature_vector_from_json json_data = Ok v ->
             FEATURES !! i = Some feat ->
             exists x, v !! i = Some x /\
                       np_float (json_slot json_data feat) = Ok x).
  { intros json_data v i feat H Hi. apply json_encoder_Ok in H.
    exact (Forall2_lookup_l _ _ _ _ _ H Hi). }
  split; [|split].
  - intros json_data v i feat H Hi.
    destruct (Hslot _ _ _ _ H Hi) as [x [Hx Hc]]. unfold json_slot in Hc.
    destruct (json_data !! feat) as [val|]; [eauto|].
    rewrite np_float_zero in Hc. now injection Hc as <-.
  - intros json_data v i feat x H Hi Hf.
    destruct (Hslot _ _ _ _ H Hi) as [y [Hy Hc]]. unfold json_slot in Hc.
    rewrite Hf in Hc. simpl in Hc. now injection Hc as <-.
  - intros json_data k val Hk. rewrite !json_vals_eq. f_equal.
    apply map_ext_in. intros feat Hin. unfold json_slot.
    rewrite lookup_insert_ne; [reflexivity|]. intros ->. contradiction.
Qed.

(** C10. The form encoder returns a vector for every form and never
    raises; a position decided by the lexical table holds 1.0 or 0.0. *)
Theorem C10_form_encoder_total :
  forall form, exists v,
    build_feature_vector_from_form form = Ok v /\
    forall i feat raw,
      FEATURES !! i = Some feat ->
      form_get form feat = Some raw ->
      raw <> "" ->
      FloatSyntax.parse raw = None ->
      v !! i = Some f_one \/ v !! i = Some f_zero.
Proof.
  intros form. exists (map (form_float form) FEATURES).
  split; [apply form_encoder_total|].
  intros i feat raw Hi Hget Hne Hparse.
  rewrite lookup_map, Hi. simpl. unfold form_float, form_slot.
  rewrite Hget, Hparse.
  destruct (String.eqb_spec raw "") as [->|_]; [contradiction|].
  destruct (lexical_fallback_binary raw) as [-> | ->]; auto.
Qed.

End EncoderClaims.

(** ** Which strings reach the lexical table *)

Section FloatGrammarFacts.
Import Char Str FloatSyntax.

(** Facts about single code points are settled by running through all 256
    of them. *)
Ltac each_char c :=
  destruct c as [[] [] [] [] [] [] [] []]; vm_compute; try tauto;
  try discriminate; try (intuition discriminate).

Lemma unicode_lower_zero_one (c d : ascii) :
  d = "0"%char \/ d = "1"%char -> unicode_lower c = d -> c = d.
Proof. intros [-> | ->]; each_char c. Qed.

Lemma unicode_space_ascii (c : ascii) :
  Py_UNICODE_ISSPACE c = true -> between 28 31 c = false ->
  (ord c <? 128)%N = true -> Py_ISSPACE c = true.
Proof. each_char c. Qed.

Lemma ascii_below_127 (c : ascii) :
  (ord c <? 127)%N = true -> (ord c <? 128)%N = true.
Proof. each_char c. Qed.

Lemma space_not_underscore (c : ascii) :
  Py_ISSPACE c = true -> code_is 95 c = false.
Proof. each_char c. Qed.

Lemma drop_while_split (p : ascii -> bool) (l : list ascii) :
  exists pre, l = pre ++ drop_while p l /\ Forall (fun c => p c = true) pre.
Proof.
  induction l as [|c l [pre [Hl Hpre]]]; simpl.
  - exists []. split; [reflexivity|constructor].
  - destruct (p c) eqn:Hc.
    + exists (c :: pre). split; [simpl; congruence|constructor; assumption].
    + exists []. split; [reflexivity|constructor].
Qed.

Lemma drop_while_all (p : ascii -> bool) (pre rest : list ascii) :
  Forall (fun c => p c = true) pre ->
  drop_while p (pre ++ rest) = drop_while p rest.
Proof.
  induction 1 as [|c pre Hc _ IH]; simpl; [reflexivity|]. now rewrite Hc.
Qed.

Lemma drop_while_end_all (p : ascii -> bool) (l : list ascii) :
  Forall (fun c => p c = true) l -> drop_while_end p l = [].
Proof.
  intros H. unfold drop_while_end.
  rewrite <- (app_nil_r (rev l)), drop_while_all; [reflexivity|].
  now apply Forall_rev.
Qed.

(** A string that strips to the single character [d] is [d] between two
    runs of white space. *)
Lemma strip_chars_singleton (l : list ascii) (d : ascii) :
  strip_chars l = [d] ->
  exists pre post,
    l = pre ++ d :: post /\
    Forall (fun c => Py_UNICODE_ISSPACE c = true) pre /\
    Forall (fun c => Py_UNICODE_ISSPACE c = true) post.
Proof.
  unfold strip_chars, drop_while_end. intros H.
  destruct (drop_while_split Py_UNICODE_ISSPACE l) as [pre [Hl Hpre]].
  set (m := drop_while Py_UNICODE_ISSPACE l) in *.
  destruct (drop_while_split Py_UNICODE_ISSPACE (rev m)) as [q [Hm Hq]].
  apply (f_equal (@rev ascii)) in H. rewrite rev_involutive in H. simpl in H.
  rewrite H in Hm. apply (f_equal (@rev ascii)) in Hm.
  rewrite rev_involutive, rev_app_distr in Hm. simpl in Hm.
  exists pre, (rev q). split; [congruence|]. split; [assumption|].
  now apply Forall_rev.
Qed.

(** White space other than U+001C..U+001F survives the transformation as
    C-locale white space. *)
Lemma transform_loop_spaces (pre rest : list ascii) :
  Forall (fun c => Py_UNICODE_ISSPACE c = true /\ between 28 31 c = false)
    pre ->
  exists pre',
    transform_loop (pre ++ rest) = pre' ++ transform_loop rest /\
    Forall (fun c => Py_ISSPACE c = true) pre'.
Proof.
  induction 1 as [|c pre [Hc Hs] _ [pre' [IH Hpre']]]; simpl.
  - exists []. split; [reflexivity|constructor].
  - destruct (ord c <? 127)%N eqn:Hlt.
    + exists (c :: pre'). split; [simpl; congruence|]. constructor; auto.
      apply unicode_space_ascii; auto using ascii_below_127.
    + rewrite Hc. exists (" "%char :: pre'). split; [simpl; congruence|].
      constructor; auto.
Qed.

Lemma transform_spaces_around (pre post : list ascii) (d : ascii) :
  d = "0"%char \/ d = "1"%char ->
  Forall (fun c => Py_UNICODE_ISSPACE c = true /\ between 28 31 c = false)
    pre ->
  Forall (fun c => Py_UNICODE_ISSPACE c = true /\ between 28 31 c = false)
    post ->
  exists pre' post',
    transform_decimal_and_space (pre ++ d :: post) = pre' ++ d :: post' /\
    Forall (fun c => Py_ISSPACE c = true) pre' /\
    Forall (fun c => Py_ISSPACE c = true) post'.
Proof.
  intros Hd Hpre Hpost. unfold transform_decimal_and_space.
  destruct (is_ascii (pre ++ d :: post)) eqn:Hasc.
  - exists pre, post. split; [reflexivity|].
    unfold is_ascii in Hasc. rewrite forallb_app in Hasc. simpl in Hasc.
    apply andb_prop in Hasc as [Ha1 Ha2].
    apply andb_prop in Ha2 as [_ Ha2].
    rewrite List.forallb_forall in Ha1, Ha2. rewrite List.Forall_forall in Hpre, Hpost.
    split; apply List.Forall_forall; intros c Hin.
    + destruct (Hpre c Hin). apply unicode_space_ascii; auto.
    + destruct (Hpost c Hin). apply unicode_space_ascii; auto.
  - destruct (transform_loop_spaces pre (d :: post) Hpre) as [pre' [E1 H1]].
    destruct (transform_loop_spaces post [] Hpost) as [post' [E2 H2]].
    rewrite app_nil_r in E2. simpl in E2. rewrite app_nil_r in E2.
    exists pre', post'. split; [|split; assumption].
    rewrite E1. f_equal. destruct Hd as [-> | ->]; simpl; now rewrite E2.
Qed.

Lemma spaced_digit_parses (pre post : list ascii) (d : ascii) :
  d = "0"%char \/ d = "1"%char ->
  Forall (fun c => Py_ISSPACE c = true) pre ->
  Forall (fun c => Py_ISSPACE c = true) post ->
  exists x, string_to_number_with_underscores (pre ++ d :: post) = Some x.
Proof.
  intros Hd Hpre Hpost. unfold string_to_number_with_underscores.
  assert (Hus : existsb (code_is 95) (pre ++ d :: post) = false).
  { rewrite existsb_app. simpl.
    assert (Hno : forall l, Forall (fun c => Py_ISSPACE c = true) l ->
                            existsb (code_is 95) l = false).
    { induction 1 as [|c l Hc _ IH]; simpl; [reflexivity|].
      now rewrite (space_not_underscore c Hc). }
    rewrite (Hno pre Hpre), (Hno post Hpost).
    destruct Hd as [-> | ->]; reflexivity. }
  rewrite Hus. simpl. unfold float_from_string_inner.
  rewrite (drop_while_all _ pre _ Hpre).
  destruct Hd as [-> | ->]; simpl; rewrite (drop_while_end_all _ post Hpost);
    vm_compute; eauto.
Qed.

(** A string without U+001C..U+001F that strips to "0" or "1" is accepted
    by [float]. *)
Lemma stripped_digit_parses (raw : string) :
  lower (strip raw) = "1" \/ lower (strip raw) = "0" ->
  (forall c, In c (list_ascii_of_string raw) -> between 28 31 c = false) ->
  exists x, parse raw = Some x.
Proof.
  intros Hs Hsep. unfold parse.
  assert (Hd : exists d, (d = "0"%char \/ d = "1"%char) /\
                         strip_chars (list_ascii_of_string raw) = [d]).
  { unfold lower, strip in Hs. rewrite list_ascii_of_string_of_list_ascii in Hs.
    destruct Hs as [Hs|Hs];
      apply (f_equal list_ascii_of_string) in Hs;
      rewrite list_ascii_of_string_of_list_ascii in Hs; simpl in Hs;
      destruct (strip_chars (list_ascii_of_string raw)) as [|c [|c' r]];
      try discriminate; injection Hs as Hs;
      [exists "1"%char | exists "0"%char]; split; auto; f_equal;
      apply unicode_lower_zero_one; auto. }
  destruct Hd as [d [Hd Hstrip]].
  destruct (strip_chars_singleton _ _ Hstrip) as [pre [post [Hl [Hpre Hpost]]]].
  rewrite Hl in Hsep |- *.
  assert (Hpre' : Forall (fun c => Py_UNICODE_ISSPACE c = true /\
                                   between 28 31 c = false) pre).
  { rewrite List.Forall_forall in Hpre |- *. intros c Hin. split; auto.
    apply Hsep, in_or_app. now left. }
  assert (Hpost' : Forall (fun c => Py_UNICODE_ISSPACE c = true /\
                                    between 28 31 c = false) post).
  { rewrite List.Forall_forall in Hpost |- *. intros c Hin. split; auto.
    apply Hsep, in_or_app. right. now right. }
  destruct (transform_spaces_around pre post d Hd Hpre' Hpost')
    as [pre2 [post2 [-> [H1 H2]]]].
  now apply spaced_digit_parses.
Qed.

End FloatGrammarFacts.

Section LexicalClaims.
Context `{PF : PyFloat}.
Import Char Str FloatSyntax.

(** C4 (amended). Every string that [float] accepts, such as "1" or "1.0",
    is handled by the numeric parse and never by the lexical table. A
    string that [float] rejects can still match the "1" or "0" entry of
    the table, but only when it carries one of U+001C..U+001F, which
    [strip] removes as white space and [float] does not accept. *)
Theorem C4_digit_entries_of_the_lexical_table :
  (forall raw x, parse raw = Some x ->
                 float_of_str raw = Ok (float_of_literal x)) /\
  float_of_str "1" = Ok f_one /\
  float_of_str "1.0" = Ok f_one /\
  (forall raw,
      parse raw = None ->
      lower (strip raw) = "1" \/ lower (strip raw) = "0" ->
      exists c, In c (list_ascii_of_string raw) /\ between 28 31 c = true).
Proof.
  split; [|split; [|split]]; try reflexivity.
  - intros raw x H. unfold float_of_str. now rewrite H.
  - intros raw Hparse Hs.
    destruct (existsb (between 28 31) (list_ascii_of_string raw)) eqn:Hex.
    + apply List.existsb_exists in Hex. exact Hex.
    + exfalso. destruct (stripped_digit_parses raw Hs) as [x Hx].
      * intros c Hin. destruct (between 28 31 c) eqn:Hc; [|reflexivity].
        assert (existsb (between 28 31) (list_ascii_of_string raw) = true)
          by (apply List.existsb_exists; eauto).
        congruence.
      * congruence.
Qed.

End LexicalClaims.

(** ** The handler *)

Section HandlerClaims.
Context `{PF : PyFloat}.
Import FloatSyntax.

(** The first call of the handler: the encoder of the branch it takes. *)
Lemma try_body_run (model : classifier) (req : request) :
  try_body model req =
  let json_arm := truthy (get_json_silent req) in
  let enc := if json_arm then CallJsonEncoder else CallFormEncoder in
  match encode_request req with
  | Raise e => (Raise e, [enc])
  | Ok X =>
      match model_predict model X with
      | Raise e => (Raise e, [enc; CallPredict X])
      | Ok pred =>
          match model_predict_proba model X with
          | Raise e => (Raise e, [enc; CallPredict X; CallPredictProba X])
          | Ok proba =>
              (Ok (if json_arm && is_json req
                   then Jsonify [("prediction", JString (message_of pred));
                                 ("probability", JNumber proba)] 200
                   else RenderTemplate "index.html"
                          (prediction_text (message_of pred) proba)),
               [enc; CallPredict X; CallPredictProba X])
          end
      end
  end.
Proof.
  unfold try_body, encode_request, json_branch, form_branch.
  generalize (build_feature_vector_from_form (form req)) as rf.
  destruct (get_json_silent req) as [d|]; cbv zeta; intros rf.
  - generalize (build_feature_vector_from_json d) as rj. intros rj.
    destruct (truthy (Some d)); unfold call, tbind, ret;
      [destruct rj as [X|e] | destruct rf as [X|e]]; try reflexivity;
      destruct (model_predict model X); try reflexivity;
      destruct (model_predict_proba model X); try reflexivity.
    destruct (is_json req); reflexivity.
  - unfold call, tbind, ret. destruct rf as [X|e]; try reflexivity.
    destruct (model_predict model X); try reflexivity.
    destruct (model_predict_proba model X); reflexivity.
Qed.

Lemma predict_trace (model : classifier) (req : request) :
  snd (predict model req) = snd (try_body model req).
Proof.
  unfold predict. now destruct (try_body model req) as [[resp|e] trace].
Qed.

(** Whatever the classifier does, the form arm starts with the form
    encoder and never calls the JSON encoder. *)
Lemma form_arm_trace (model : classifier) (req : request) :
  truthy (get_json_silent req) = false ->
  try_body model req = form_branch model req /\
  (exists rest, snd (predict model req) = CallFormEncoder :: rest) /\
  ~ In CallJsonEncoder (snd (predict model req)).
Proof.
  intros Hf. split.
  - unfold try_body. destruct (get_json_silent req) as [d|]; [|reflexivity].
    now rewrite Hf.
  - rewrite predict_trace, try_body_run. cbv zeta. rewrite Hf.
    destruct (encode_request req) as [X|e]; simpl.
    2: { split; [eauto|]. intros [H|[]]; discriminate. }
    destruct (model_predict model X); simpl.
    2: { split; [eauto|]. intros [H|[H|[]]]; discriminate. }
    destruct (model_predict_proba model X); simpl;
      (split; [eauto|]; intros [H|[H|[H|[]]]]; discriminate).
Qed.

Lemma nonempty_json_takes_json_branch (model : classifier) (req : request)
    (d : gmap string pyval) :
  get_json_silent req = Some d -> d <> ∅ ->
  try_body model req = json_branch model req d.
Proof.
  intros Hj Hd. unfold try_body, truthy. rewrite Hj.
  now rewrite bool_decide_eq_false_2.
Qed.

(** C5 (amended). When a JSON mapping supplies for a schema feature a
    string that does not parse as a float, the failure arises in the JSON
    encoder itself, at the conversion to a float array: the encoder raises,
    the classifier is not called, and the handler answers with the error
    response. *)
Theorem C5_unconvertible_value_raises_in_the_encoder :
  forall json_data feat s,
    In feat FEATURES ->
    json_data !! feat = Some (PStr s) ->
    parse s = None ->
    exists e,
      build_feature_vector_from_json json_data = Raise e /\
      forall model req,
        get_json_silent req = Some json_data ->
        predict model req = (error_response req e, [CallJsonEncoder]).
Proof.
  intros json_data feat s Hin Hget Hparse.
  assert (Hr : exists e, build_feature_vector_from_json json_data = Raise e).
  { rewrite json_vals_eq. unfold np_array_float.
    apply (mapM_Raise np_float _ (PStr s)
             (Exn ValueError
                ("could not convert string to float: " ++ Str.repr s))).
    - apply in_map_iff. exists feat. split; [|assumption].
      unfold json_slot. now rewrite Hget.
    - simpl. unfold float_of_str. now rewrite Hparse. }
  destruct Hr as [e He]. exists e. split; [assumption|].
  intros model req Hj. unfold predict. rewrite try_body_run. cbv zeta.
  unfold encode_request. rewrite Hj.
  assert (Ht : truthy (Some json_data) = true).
  { unfold truthy. rewrite bool_decide_eq_false_2; [reflexivity|].
    intros ->. rewrite lookup_empty in Hget. discriminate Hget. }
  rewrite Ht, He. reflexivity.
Qed.

(** C6, at the empty object. A request that declares JSON and whose body
    is the empty object does not take the JSON branch: [if json_data:] is
    false for it, the handler encodes the form fields instead, never calls
    the JSON encoder, and never answers with a 200 JSON body. *)
Theorem C6_empty_json_object_takes_the_form_branch :
  forall model fields,
    let req := {| is_json := true; parsed_json := Some ∅; form := fields |} in
    get_json_silent req = Some ∅ /\
    try_body model req = form_branch model req /\
    (exists rest, snd (predict model req) = CallFormEncoder :: rest) /\
    ~ In CallJsonEncoder (snd (predict model req)) /\
    (forall body, fst (predict model req) <> Jsonify body 200).
Proof.
  intros model fields req.
  assert (Ht : truthy (get_json_silent req) = false) by reflexivity.
  destruct (form_arm_trace model req Ht) as [H1 [H2 H3]].
  repeat split; try assumption.
  intros body. unfold predict. rewrite try_body_run. cbv zeta. rewrite Ht.
  destruct (encode_request req) as [X|e]; [|discriminate].
  destruct (model_predict model X); [|discriminate].
  destruct (model_predict_proba model X); discriminate.
Qed.

(** C7. A request whose body is malformed JSON gives no JSON data and no
    exception at the parse step; the handler does not call the JSON
    encoder and goes on to the form branch. *)
Theorem C7_malformed_json_falls_through_to_the_form :
  forall model declared fields,
    let req := {| is_json := declared; parsed_json := None;
                  form := fields |} in
    get_json_silent req = None /\
    try_body model req = form_branch model req /\
    (exists rest, snd (predict model req) = CallFormEncoder :: rest) /\
    ~ In CallJsonEncoder (snd (predict model req)).
Proof.
  intros model declared fields req.
  assert (Hn : get_json_silent req = None) by (now destruct declared).
  split; [assumption|]. apply form_arm_trace. now rewrite Hn.
Qed.

(** C8 (amended). When the classifier returns a label and a probability,
    the response carries the negative message for label 0 and the positive
    message for any other label, such as 1; a JSON response carries
    exactly the classifier's positive-class probability, and a rendered
    page carries it formatted to two decimals. *)
Theorem C8_response_reports_label_and_probability :
  message_of 0 = "You have not contracted COVID-19" /\
  message_of 1 = "You most likely have contracted COVID-19" /\
  forall model req resp trace,
    try_body model req = (Ok resp, trace) ->
    exists X pred proba,
      encode_request req = Ok X /\
      model_predict model X = Ok pred /\
      model_predict_proba model X = Ok proba /\
      fst (predict model req) = resp /\
      resp = (if truthy (get_json_silent req) && is_json req
              then Jsonify [("prediction", JString (message_of pred));
                            ("probability", JNumber proba)] 200
              else RenderTemplate "index.html"
                     (message_of pred ++ " (Probability: "
                        ++ format_2f proba ++ ")")).
Proof.
  split; [reflexivity|]. split; [reflexivity|].
  intros model req resp trace H. unfold predict. rewrite H. simpl.
  rewrite try_body_run in H. cbv zeta in H.
  destruct (encode_request req) as [X|e]; [|discriminate].
  destruct (model_predict model X) as [pred|e] eqn:Hp; [|discriminate].
  destruct (model_predict_proba model X) as [proba|e] eqn:Hq; [|discriminate].
  injection H as <- _. exists X, pred, proba. auto.
Qed.

(** C9. An exception raised by the encoder or by either call of the
    classifier is caught: a request that declared JSON gets status 400
    and a JSON body whose "error" field is the exception text, any other
    request gets the page with the error text in place of a prediction.
    Every run of the handler ends in a response. *)
Theorem C9_exceptions_become_error_responses :
  (forall model req e,
      encode_request req = Raise e \/
      (exists X, encode_request req = Ok X /\
                 model_predict model X = Raise e) \/
      (exists X pred, encode_request req = Ok X /\
                      model_predict model X = Ok pred /\
                      model_predict_proba model X = Raise e) ->
      fst (predict model req)
      = if is_json req then Jsonify [("error", JString (str_exn e))] 400
        else RenderTemplate "index.html" ("Error: " ++ str_exn e)) /\
  (forall model req,
      (exists resp, fst (try_body model req) = Ok resp /\
                    fst (predict model req) = resp) \/
      (exists e, fst (try_body model req) = Raise e /\
                 fst (predict model req) = error_response req e)).
Proof.
  split.
  - intros model req e H. unfold predict. rewrite try_body_run. cbv zeta.
    destruct H as [H|[[X [H1 H2]]|[X [pred [H1 [H2 H3]]]]]].
    + now rewrite H.
    + now rewrite H1, H2.
    + now rewrite H1, H2, H3.
  - intros model req. unfold predict.
    destruct (try_body model req) as [[resp|e] trace]; simpl; eauto.
Qed.

End HandlerClaims.

(** ** More on the encoders *)

Section EncoderProperties.
Context `{PF : PyFloat}.
Import Str.

Lemma mapM_map_ext {A B C} (f : B -> result C) (g1 g2 : A -> B)
    (l : list A) :
  (forall a, In a l -> f (g1 a) = f (g2 a)) ->
  mapM f (map g1 l) = mapM f (map g2 l).
Proof.
  induction l as [|a l IH]; intros H; simpl; [reflexivity|].
  rewrite (H a) by (now left).
  rewrite IH by (intros; apply H; now right). reflexivity.
Qed.

(** The JSON encoder sees a mapping only through the floats of its
    schema slots. *)
Lemma json_encoder_ext (j1 j2 : gmap string pyval) :
  (forall feat, In feat FEATURES ->
                np_float (json_slot j1 feat) = np_float (json_slot j2 feat)) ->
  build_feature_vector_from_json j1 = build_feature_vector_from_json j2.
Proof.
  intros H. rewrite !json_vals_eq. unfold np_array_float.
  now apply mapM_map_ext.
Qed.

(** The form encoder sees a form only through [form.get] at the schema
    keys. *)
Lemma form_encoder_ext (f1 f2 : list (string * string)) :
  (forall feat, In feat FEATURES -> form_get f1 feat = form_get f2 feat) ->
  build_feature_vector_from_form f1 = build_feature_vector_from_form f2.
Proof.
  intros H. rewrite !form_encoder_total. f_equal.
  apply map_ext_in. intros feat Hin. unfold form_float, form_slot.
  now rewrite (H feat Hin).
Qed.

Lemma form_get_app (a b : list (string * string)) (key : string) :
  form_get (a ++ b) key =
  match form_get a key with
  | Some v => Some v
  | None => form_get b key
  end.
Proof.
  induction a as [|[k v] a IH]; simpl; [reflexivity|].
  now destruct (String.eqb k key).
Qed.

Lemma json_insert_same_float (json_data : gmap string pyval) (k : string)
    (v w : pyval) :
  np_float v = np_float w ->
  build_feature_vector_from_json (<[k := v]> json_data)
  = build_feature_vector_from_json (<[k := w]> json_data).
Proof.
  intros H. apply json_encoder_ext. intros feat _. unfold json_slot.
  destruct (decide (k = feat)) as [->|Hne].
  - now rewrite !lookup_insert_eq.
  - now rewrite !lookup_insert_ne.
Qed.

Lemma json_insert_zero_float (json_data : gmap string pyval) (k : string)
    (v : pyval) :
  np_float v = Ok f_zero ->
  build_feature_vector_from_json (<[k := v]> json_data)
  = build_feature_vector_from_json (delete k json_data).
Proof.
  intros H. apply json_encoder_ext. intros feat _. unfold json_slot.
  destruct (decide (k = feat)) as [->|Hne].
  - now rewrite lookup_insert_eq, lookup_delete_eq.
  - now rewrite lookup_insert_ne, lookup_delete_ne.
Qed.

(** X1. The form encoder reads, for each schema key, only the first field
    submitted under it: a field whose key is outside the schema, and a
    field that repeats a key already submitted, change nothing, wherever
    they stand in the form. *)
Theorem form_encoder_ignores_unknown_and_repeated_fields :
  (forall pre post k v,
      ~ In k FEATURES ->
      build_feature_vector_from_form (pre ++ (k, v) :: post)
      = build_feature_vector_from_form (pre ++ post)) /\
  (forall pre post k v first,
      form_get pre k = Some first ->
      build_feature_vector_from_form (pre ++ (k, v) :: post)
      = build_feature_vector_from_form (pre ++ post)).
Proof.
  split.
  - intros pre post k v Hk. apply form_encoder_ext. intros feat Hin.
    rewrite !form_get_app. simpl.
    destruct (String.eqb_spec k feat) as [->|_]; [contradiction|reflexivity].
  - intros pre post k v first Hfirst. apply form_encoder_ext. intros feat _.
    rewrite !form_get_app. simpl.
    destruct (String.eqb_spec k feat) as [->|_]; [|reflexivity].
    now rewrite Hfirst.
Qed.

(** X2. For the JSON encoder, a key given as the integer 0, the float 0.0,
    [false] or the string "0" is the same as a key left out: the outcome
    is that of the mapping without the key. *)
Theorem json_explicit_zero_is_omission :
  forall json_data k,
    build_feature_vector_from_json (<[k := PInt 0]> json_data)
    = build_feature_vector_from_json (delete k json_data) /\
    build_feature_vector_from_json (<[k := PFloat f_zero]> json_data)
    = build_feature_vector_from_json (delete k json_data) /\
    build_feature_vector_from_json (<[k := PBool false]> json_data)
    = build_feature_vector_from_json (delete k json_data) /\
    build_feature_vector_from_json (<[k := PStr "0"]> json_data)
    = build_feature_vector_from_json (delete k json_data).
Proof.
  intros json_data k.
  split; [|split; [|split]]; apply json_insert_zero_float; reflexivity.
Qed.

(** X3. The conversion to a float array makes [true], the integer 1, the
    float 1.0 and the string "1" interchangeable as values of any key of
    a JSON mapping. *)
Theorem json_true_one_and_numeric_string_agree :
  forall json_data k,
    build_feature_vector_from_json (<[k := PBool true]> json_data)
    = build_feature_vector_from_json (<[k := PFloat f_one]> json_data) /\
    build_feature_vector_from_json (<[k := PInt 1]> json_data)
    = build_feature_vector_from_json (<[k := PFloat f_one]> json_data) /\
    build_feature_vector_from_json (<[k := PStr "1"]> json_data)
    = build_feature_vector_from_json (<[k := PFloat f_one]> json_data).
Proof.
  intros json_data k.
  split; [|split]; apply json_insert_same_float; reflexivity.
Qed.

Lemma Forall2_eq_map {A B} (R : A -> B -> Prop) (g : A -> B)
    (l : list A) (v : list B) :
  Forall2 R l v ->
  (forall a b, In a l -> R a b -> b = g a) ->
  v = map g l.
Proof.
  induction 1 as [|a b l v Hab _ IH]; intros H; simpl; [reflexivity|].
  f_equal.
  - apply H; [now left|assumption].
  - apply IH. intros a' b' Hin. apply H. now right.
Qed.

(** X4. The two encoders agree on string values: when a JSON mapping
    carries, under each schema key, the string that a form carries under
    it (and nothing where the form has nothing), and the JSON encoder
    returns a vector, the form encoder returns the same vector. *)
Theorem json_and_form_encoders_agree_on_strings :
  forall (json_data : gmap string pyval) (fields : list (string * string)) v,
    (forall feat, In feat FEATURES ->
                  json_data !! feat = PStr <$> form_get fields feat) ->
    build_feature_vector_from_json json_data = Ok v ->
    build_feature_vector_from_form fields = Ok v.
Proof.
  intros json_data fields v Hsame Hjson.
  rewrite form_encoder_total. f_equal.
  apply json_encoder_Ok in Hjson.
  symmetry. apply (Forall2_eq_map _ _ _ _ Hjson).
  intros feat x Hin Hx. unfold json_slot in Hx. rewrite (Hsame feat Hin) in Hx.
  unfold form_float, form_slot.
  destruct (form_get fields feat) as [raw|].
  - change (float_of_str raw = Ok x) in Hx. unfold float_of_str in Hx.
    destruct (FloatSyntax.parse raw) as [lit|] eqn:Hp; [|discriminate].
    destruct (String.eqb_spec raw "") as [->|_]; [discriminate Hp|].
    congruence.
  - change (np_float (PInt 0) = Ok x) in Hx.
    rewrite np_float_zero in Hx. congruence.
Qed.

Lemma json_without_schema_keys (json_data : gmap string pyval) :
  (forall feat, In feat FEATURES -> json_data !! feat = None) ->
  build_feature_vector_from_json json_data = Ok (repeat f_zero 38).
Proof.
  intros H. rewrite json_vals_eq. unfold np_array_float.
  rewrite (mapM_map_ext np_float (json_slot json_data) (fun _ => PInt 0)).
  - rewrite (mapM_total np_float (fun _ => f_zero)); [reflexivity|].
    intros a Hin. apply in_map_iff in Hin as [feat [<- _]]. reflexivity.
  - intros feat Hin. unfold json_slot. now rewrite (H feat Hin).
Qed.

(** X5. An input that carries no schema key, such as the empty JSON object
    or the empty form, is encoded as 38 zeros by either encoder. *)
Theorem input_without_schema_keys_gives_zeros :
  (forall json_data : gmap string pyval,
      (forall feat, In feat FEATURES -> json_data !! feat = None) ->
      build_feature_vector_from_json json_data = Ok (repeat f_zero 38)) /\
  (forall fields : list (string * string),
      (forall feat, In feat FEATURES -> form_get fields feat = None) ->
      build_feature_vector_from_form fields = Ok (repeat f_zero 38)).
Proof.
  split.
  - apply json_without_schema_keys.
  - intros fields H. rewrite form_encoder_total.
    rewrite (map_ext_in (form_float fields) (fun _ => f_zero));
      [reflexivity|].
    intros feat Hin. unfold form_float, form_slot. now rewrite (H feat Hin).
Qed.

End EncoderProperties.

(** ** More on the lexical table *)

(** A fact about one code point, settled on each of the 256. *)
Ltac on_each_char c :=
  destruct c as [[] [] [] [] [] [] [] []]; vm_compute; intros;
  try congruence; try reflexivity.

Section StripFacts.
Import Char Str.

Lemma lower_idempotent (c : ascii) :
  unicode_lower (unicode_lower c) = unicode_lower c.
Proof. on_each_char c. Qed.

Lemma lower_keeps_space (c : ascii) :
  Py_UNICODE_ISSPACE (unicode_lower c) = Py_UNICODE_ISSPACE c.
Proof. on_each_char c. Qed.

Lemma drop_while_map (p : ascii -> bool) (f : ascii -> ascii)
    (l : list ascii) :
  (forall c, p (f c) = p c) ->
  drop_while p (map f l) = map f (drop_while p l).
Proof.
  intros H. induction l as [|c l IH]; simpl; [reflexivity|].
  rewrite H. now destruct (p c).
Qed.

Lemma drop_while_starts (p : ascii -> bool) (l : list ascii) (c : ascii)
    (r : list ascii) :
  drop_while p l = c :: r -> p c = false.
Proof.
  induction l as [|a l IH]; simpl; [discriminate|].
  destruct (p a) eqn:Ha; [assumption|]. now intros [= <- _].
Qed.

Lemma drop_while_fix (p : ascii -> bool) (l : list ascii) :
  (forall c r, l = c :: r -> p c = false) -> drop_while p l = l.
Proof.
  destruct l as [|c r]; intros H; simpl; [reflexivity|].
  now rewrite (H c r eq_refl).
Qed.

Lemma drop_while_idempotent (p : ascii -> bool) (l : list ascii) :
  drop_while p (drop_while p l) = drop_while p l.
Proof. apply drop_while_fix. intros c r. apply drop_while_starts. Qed.

Lemma drop_while_snoc (p : ascii -> bool) (a : list ascii) (c : ascii) :
  p c = false -> drop_while p (a ++ [c]) = drop_while p a ++ [c].
Proof.
  intros Hc. induction a as [|x a IH]; simpl; [now rewrite Hc|].
  now destruct (p x).
Qed.

Lemma drop_while_end_starts (p : ascii -> bool) (m : list ascii) :
  (forall c r, m = c :: r -> p c = false) ->
  forall c r, drop_while_end p m = c :: r -> p c = false.
Proof.
  intros Hm c r. unfold drop_while_end. destruct m as [|c0 t]; simpl;
    [discriminate|].
  rewrite drop_while_snoc by (now apply (Hm c0 t)).
  rewrite rev_app_distr. simpl. intros [= <- _]. now apply (Hm c0 t).
Qed.

Lemma strip_chars_idempotent (l : list ascii) :
  strip_chars (strip_chars l) = strip_chars l.
Proof.
  unfold strip_chars.
  set (m := drop_while Py_UNICODE_ISSPACE l).
  rewrite (drop_while_fix _ (drop_while_end _ m)).
  - unfold drop_while_end. rewrite rev_involutive.
    now rewrite drop_while_idempotent.
  - apply drop_while_end_starts. intros c r. apply drop_while_starts.
Qed.

Lemma strip_chars_lower (l : list ascii) :
  strip_chars (map unicode_lower l) = map unicode_lower (strip_chars l).
Proof.
  unfold strip_chars, drop_while_end.
  rewrite (drop_while_map _ _ l lower_keeps_space).
  rewrite <- map_rev, (drop_while_map _ _ _ lower_keeps_space).
  now rewrite map_rev.
Qed.

Lemma lower_strip_lower (raw : string) :
  lower (strip (lower raw)) = lower (strip raw).
Proof.
  unfold lower, strip. rewrite !list_ascii_of_string_of_list_ascii.
  rewrite strip_chars_lower, map_map. f_equal.
  apply map_ext. intros c. apply lower_idempotent.
Qed.

Lemma strip_strip (raw : string) : strip (strip raw) = strip raw.
Proof.
  unfold strip. rewrite list_ascii_of_string_of_list_ascii.
  now rewrite strip_chars_idempotent.
Qed.

Lemma drop_while_end_prefix (p : ascii -> bool) (l : list ascii) :
  exists suffix, l = drop_while_end p l ++ suffix.
Proof.
  unfold drop_while_end.
  destruct (drop_while_split p (rev l)) as [q [Hq _]].
  exists (rev q). rewrite <- rev_app_distr, <- Hq. now rewrite rev_involutive.
Qed.

Lemma drop_while_app (p : ascii -> bool) (a b : list ascii) :
  drop_while p (a ++ b) =
  match drop_while p a with
  | [] => drop_while p b
  | c :: r => c :: r ++ b
  end.
Proof.
  induction a as [|x a IH]; simpl; [now destruct (drop_while p b)|].
  now destruct (p x).
Qed.

End StripFacts.

Lemma blank_cases (c : ascii) :
  Char.Py_ISSPACE c || Char.between 28 31 c = true ->
  In (Char.ord c) [9; 10; 11; 12; 13; 28; 29; 30; 31; 32]%N.
Proof.
  destruct c as [[] [] [] [] [] [] [] []]; vm_compute; intros H;
    try discriminate H; auto 12.
Qed.

(** The blanks, one by one. *)
Ltac on_each_blank c H :=
  apply blank_cases in H;
  rewrite <- (ascii_N_embedding c);
  change (N_of_ascii c) with (Char.ord c);
  repeat (destruct H as [<- | H]; [vm_compute; intros; try congruence|]);
  destruct H.

Section DigitFields.
Import Char Str FloatSyntax.

(** After the transformation, what [strip] would remove is C-locale white
    space or one of U+001C..U+001F. *)
Lemma unicode_space_below_127 (c : ascii) :
  Py_UNICODE_ISSPACE c = true -> (ord c <? 127)%N = true ->
  Py_ISSPACE c || between 28 31 c = true.
Proof. on_each_char c. Qed.

Lemma unicode_space_below_128 (c : ascii) :
  Py_UNICODE_ISSPACE c = true -> (ord c <? 128)%N = true ->
  Py_ISSPACE c || between 28 31 c = true.
Proof. on_each_char c. Qed.

Lemma blank_not_underscore (c : ascii) :
  Py_ISSPACE c || between 28 31 c = true -> code_is 95 c = false.
Proof. on_each_char c. Qed.

Lemma separator_starts_no_literal (c : ascii) (x : list ascii) :
  Py_ISSPACE c || between 28 31 c = true -> Py_ISSPACE c = false ->
  ascii_strtod (c :: x) = None.
Proof. intros H. on_each_blank c H. Qed.

Lemma one_then_blank (c : ascii) (x : list ascii) :
  Py_ISSPACE c || between 28 31 c = true ->
  ascii_strtod ("1"%char :: c :: x) = Some (LDecimal false 1 0, c :: x).
Proof. intros H. on_each_blank c H. Qed.

Lemma zero_then_blank (c : ascii) (x : list ascii) :
  Py_ISSPACE c || between 28 31 c = true ->
  ascii_strtod ("0"%char :: c :: x) = Some (LDecimal false 0 0, c :: x).
Proof. intros H. on_each_blank c H. Qed.

Lemma transform_loop_blank (pre rest : list ascii) :
  Forall (fun c => Py_UNICODE_ISSPACE c = true) pre ->
  exists pre',
    transform_loop (pre ++ rest) = pre' ++ transform_loop rest /\
    Forall (fun c => Py_ISSPACE c || between 28 31 c = true) pre'.
Proof.
  induction 1 as [|c pre Hc _ [pre' [IH Hpre']]]; simpl.
  - exists []. split; [reflexivity|constructor].
  - destruct (ord c <? 127)%N eqn:Hlt.
    + exists (c :: pre'). split; [simpl; congruence|]. constructor; auto.
      now apply unicode_space_below_127.
    + rewrite Hc. exists (" "%char :: pre'). split; [simpl; congruence|].
      constructor; auto.
Qed.

Lemma transform_blank_around (pre post : list ascii) (d : ascii) :
  d = "0"%char \/ d = "1"%char ->
  Forall (fun c => Py_UNICODE_ISSPACE c = true) pre ->
  Forall (fun c => Py_UNICODE_ISSPACE c = true) post ->
  exists pre' post',
    transform_decimal_and_space (pre ++ d :: post) = pre' ++ d :: post' /\
    Forall (fun c => Py_ISSPACE c || between 28 31 c = true) pre' /\
    Forall (fun c => Py_ISSPACE c || between 28 31 c = true) post'.
Proof.
  intros Hd Hpre Hpost. unfold transform_decimal_and_space.
  destruct (is_ascii (pre ++ d :: post)) eqn:Hasc.
  - exists pre, post. split; [reflexivity|].
    unfold is_ascii in Hasc. rewrite forallb_app in Hasc. simpl in Hasc.
    apply andb_prop in Hasc as [Ha1 Ha2].
    apply andb_prop in Ha2 as [_ Ha2].
    rewrite List.forallb_forall in Ha1, Ha2.
    rewrite List.Forall_forall in Hpre, Hpost.
    split; apply List.Forall_forall; intros c Hin;
      apply unicode_space_below_128; auto.
  - destruct (transform_loop_blank pre (d :: post) Hpre) as [pre' [E1 H1]].
    destruct (transform_loop_blank post [] Hpost) as [post' [E2 H2]].
    rewrite app_nil_r in E2. simpl in E2. rewrite app_nil_r in E2.
    exists pre', post'. split; [|split; assumption].
    rewrite E1. f_equal. destruct Hd as [-> | ->]; simpl; now rewrite E2.
Qed.

(** If [float] accepts a "0" or "1" standing between blanks, it reads it
    as that digit. *)
Lemma blank_digit_literal (pre post : list ascii) (d : ascii) (x : literal) :
  d = "0"%char \/ d = "1"%char ->
  Forall (fun c => Py_ISSPACE c || between 28 31 c = true) pre ->
  Forall (fun c => Py_ISSPACE c || between 28 31 c = true) post ->
  string_to_number_with_underscores (pre ++ d :: post) = Some x ->
  x = LDecimal false (digits_value [d]) 0.
Proof.
  intros Hd Hpre Hpost. unfold string_to_number_with_underscores.
  assert (Hno : forall l,
             Forall (fun c => Py_ISSPACE c || between 28 31 c = true) l ->
             existsb (code_is 95) l = false).
  { induction 1 as [|c l Hc _ IH]; simpl; [reflexivity|].
    now rewrite (blank_not_underscore c Hc). }
  assert (Hus : existsb (code_is 95) (pre ++ d :: post) = false).
  { rewrite existsb_app. simpl. rewrite (Hno pre Hpre), (Hno post Hpost).
    destruct Hd as [-> | ->]; reflexivity. }
  rewrite Hus. simpl. unfold float_from_string_inner.
  rewrite drop_while_app.
  destruct (drop_while Py_ISSPACE pre) as [|c r] eqn:Hdw.
  - assert (Hd' : drop_while Py_ISSPACE (d :: post) = d :: post)
      by (destruct Hd as [-> | ->]; reflexivity).
    rewrite Hd'.
    destruct (drop_while_end_prefix Py_ISSPACE post) as [suffix Hsuf].
    destruct (drop_while_end Py_ISSPACE post) as [|c' r'].
    + destruct Hd as [-> | ->]; vm_compute; congruence.
    + assert (Hc' : Py_ISSPACE c' || between 28 31 c' = true).
      { rewrite List.Forall_forall in Hpost. apply Hpost.
        rewrite Hsuf. now left. }
      destruct Hd as [-> | ->];
        [rewrite zero_then_blank | rewrite one_then_blank]; auto; discriminate.
  - assert (Hc : Py_ISSPACE c || between 28 31 c = true).
    { rewrite List.Forall_forall in Hpre. apply Hpre.
      destruct (drop_while_split Py_ISSPACE pre) as [q [Hq _]].
      rewrite Hq, Hdw. apply in_or_app. right. now left. }
    rewrite separator_starts_no_literal; auto; [discriminate|].
    exact (drop_while_starts _ _ _ _ Hdw).
Qed.

Lemma stripped_digit_literal (raw : string) (d : ascii) (x : literal) :
  d = "0"%char \/ d = "1"%char ->
  lower (strip raw) = String d "" ->
  parse raw = Some x ->
  x = LDecimal false (digits_value [d]) 0.
Proof.
  intros Hd Hs. unfold parse.
  assert (Hstrip : strip_chars (list_ascii_of_string raw) = [d]).
  { unfold lower, strip in Hs. rewrite list_ascii_of_string_of_list_ascii in Hs.
    apply (f_equal list_ascii_of_string) in Hs.
    rewrite list_ascii_of_string_of_list_ascii in Hs. simpl in Hs.
    destruct (strip_chars (list_ascii_of_string raw)) as [|c [|c' r]];
      try discriminate.
    injection Hs as Hs. f_equal. now apply unicode_lower_zero_one. }
  destruct (strip_chars_singleton _ _ Hstrip) as [pre [post [Hl [Hpre Hpost]]]].
  rewrite Hl.
  destruct (transform_blank_around pre post d Hd Hpre Hpost)
    as [pre2 [post2 [-> [H1 H2]]]].
  now apply blank_digit_literal.
Qed.

End DigitFields.

Section LexicalProperties.
Context `{PF : PyFloat}.
Import Char Str FloatSyntax.

(** X6. The lexical table does not depend on the case of the submitted
    value nor on the white space around it: the value lower-cased, and the
    value stripped, fall back to the same number as the value itself. *)
Theorem lexical_fallback_ignores_case_and_padding :
  forall raw,
    lexical_fallback (lower raw) = lexical_fallback raw /\
    lexical_fallback (strip raw) = lexical_fallback raw.
Proof.
  intros raw. unfold lexical_fallback. cbv zeta.
  now rewrite lower_strip_lower, strip_strip.
Qed.

(** X7. A form field whose value strips to "1" is encoded as 1.0, and one
    whose value strips to "0" as 0.0, whether [float] accepts the value or
    the lexical table decides: the two routes of the form encoder agree
    on them. *)
Theorem form_digit_fields_agree_on_both_routes :
  forall fields i feat raw,
    FEATURES !! i = Some feat ->
    form_get fields feat = Some raw ->
    (lower (strip raw) = "1" ->
     exists v, build_feature_vector_from_form fields = Ok v /\
               v !! i = Some f_one) /\
    (lower (strip raw) = "0" ->
     exists v, build_feature_vector_from_form fields = Ok v /\
               v !! i = Some f_zero).
Proof.
  intros fields i feat raw Hi Hget.
  split; intros Hs; exists (map (form_float fields) FEATURES);
    (split; [apply form_encoder_total|]);
    rewrite lookup_map, Hi; simpl; f_equal;
    unfold form_float, form_slot; rewrite Hget.
  - destruct (String.eqb_spec raw "") as [->|_]; [discriminate Hs|].
    destruct (parse raw) as [x|] eqn:Hp.
    + rewrite (stripped_digit_literal raw "1" x (or_intror eq_refl) Hs Hp).
      reflexivity.
    + unfold lexical_fallback. cbv zeta. rewrite Hs. reflexivity.
  - destruct (String.eqb_spec raw "") as [->|_]; [discriminate Hs|].
    destruct (parse raw) as [x|] eqn:Hp.
    + rewrite (stripped_digit_literal raw "0" x (or_introl eq_refl) Hs Hp).
      reflexivity.
    + unfold lexical_fallback. cbv zeta. rewrite Hs. reflexivity.
Qed.

End LexicalProperties.

(** ** More on the handler *)

Section HandlerProperties.
Context `{PF : PyFloat}.

Lemma encode_request_length (req : request) (X : list float) :
  encode_request req = Ok X -> List.length X = 38%nat.
Proof.
  unfold encode_request.
  assert (Hform : build_feature_vector_from_form (form req) = Ok X ->
                  List.length X = 38%nat).
  { rewrite form_encoder_total. intros [= <-]. reflexivity. }
  destruct (get_json_silent req) as [d|]; [|exact Hform].
  destruct (truthy (Some d)); [|exact Hform].
  intros H. apply json_encoder_Ok, Forall2_length in H. now rewrite <- H.
Qed.

Lemma truthy_nonempty (d : gmap string pyval) :
  d <> ∅ -> truthy (Some d) = true.
Proof. intros H. unfold truthy. now rewrite bool_decide_eq_false_2. Qed.

Lemma not_declared_no_json (req : request) :
  is_json req = false -> get_json_silent req = None.
Proof. intros H. unfold get_json_silent. now rewrite H. Qed.

(** X8. The response follows what the request declared. A request that
    does not declare JSON always gets the rendered page, and the JSON
    encoder is not called for it. A request that declares JSON and carries
    a non-empty object always gets a JSON body: the prediction with
    status 200, or the error with status 400. *)
Theorem response_format_follows_the_request :
  (forall model req,
      is_json req = false ->
      (exists text,
          fst (predict model req) = RenderTemplate "index.html" text) /\
      ~ In CallJsonEncoder (snd (predict model req))) /\
  (forall model req d,
      is_json req = true ->
      parsed_json req = Some d ->
      d <> ∅ ->
      (exists pred proba,
          fst (predict model req)
          = Jsonify [("prediction", JString (message_of pred));
                     ("probability", JNumber proba)] 200) \/
      (exists e,
          fst (predict model req)
          = Jsonify [("error", JString (str_exn e))] 400)).
Proof.
  split.
  - intros model req Hdecl.
    assert (Ht : truthy (get_json_silent req) = false)
      by (now rewrite not_declared_no_json).
    split; [|now apply form_arm_trace].
    unfold predict. rewrite try_body_run. cbv zeta. rewrite Ht.
    unfold error_response. rewrite Hdecl.
    destruct (encode_request req) as [X|e]; [|simpl; eauto].
    destruct (model_predict model X); [|simpl; eauto].
    destruct (model_predict_proba model X); simpl; eauto.
  - intros model req d Hdecl Hbody Hd.
    assert (Hj : get_json_silent req = Some d)
      by (unfold get_json_silent; now rewrite Hdecl).
    unfold predict. rewrite try_body_run. cbv zeta.
    rewrite Hj, (truthy_nonempty d Hd). unfold error_response.
    rewrite Hdecl.
    destruct (encode_request req) as [X|e]; [|simpl; eauto].
    destruct (model_predict model X) as [pred|e]; [|simpl; eauto].
    destruct (model_predict_proba model X) as [proba|e]; simpl; eauto.
Qed.

(** X9. The handler calls one encoder, first. The classifier is called
    only once the encoder has returned, only on the encoded vector, which
    has 38 positions: [predict] once, and [predict_proba] once, after
    [predict] has returned, on the same vector. *)
Theorem classifier_is_called_on_the_encoded_vector :
  forall model req,
    exists enc,
      (enc = CallJsonEncoder \/ enc = CallFormEncoder) /\
      ((snd (predict model req) = [enc] /\
        exists e, encode_request req = Raise e) \/
       (exists X,
           encode_request req = Ok X /\
           List.length X = 38%nat /\
           ((snd (predict model req) = [enc; CallPredict X] /\
             exists e, model_predict model X = Raise e) \/
            (snd (predict model req)
             = [enc; CallPredict X; CallPredictProba X] /\
             exists pred, model_predict model X = Ok pred)))).
Proof.
  intros model req.
  exists (if truthy (get_json_silent req) then CallJsonEncoder
          else CallFormEncoder).
  split; [destruct (truthy (get_json_silent req)); auto|].
  rewrite predict_trace, try_body_run. cbv zeta.
  destruct (encode_request req) as [X|e] eqn:Henc; [|left; eauto].
  right. exists X. split; [reflexivity|].
  split; [now apply (encode_request_length req)|].
  destruct (model_predict model X) as [pred|e]; [|left; eauto].
  right. destruct (model_predict_proba model X); eauto.
Qed.

(** X10. Encoding a form cannot fail: when the handler takes the form
    branch and the classifier answers on vectors of 38 positions, the
    response is the page with a prediction, never an error. *)
Theorem form_post_gets_a_prediction_when_the_classifier_answers :
  forall model req,
    truthy (get_json_silent req) = false ->
    (forall X, List.length X = 38%nat ->
               exists pred, model_predict model X = Ok pred) ->
    (forall X, List.length X = 38%nat ->
               exists proba, model_predict_proba model X = Ok proba) ->
    exists pred proba,
      fst (predict model req)
      = RenderTemplate "index.html"
          (message_of pred ++ " (Probability: " ++ format_2f proba ++ ")").
Proof.
  intros model req Ht Hpred Hproba.
  unfold predict. rewrite try_body_run. cbv zeta. rewrite Ht.
  assert (Henc : encode_request req
                 = Ok (map (form_float (form req)) FEATURES)).
  { unfold encode_request.
    destruct (get_json_silent req) as [d|]; [|apply form_encoder_total].
    rewrite Ht. apply form_encoder_total. }
  rewrite Henc.
  assert (Hlen : List.length (map (form_float (form req)) FEATURES) = 38%nat)
    by (now rewrite length_map).
  destruct (Hpred _ Hlen) as [pred ->].
  destruct (Hproba _ Hlen) as [proba ->].
  exists pred, proba. reflexivity.
Qed.

(** X11. In a non-empty JSON body, a key outside the schema changes
    nothing: the response and the calls made are those of the body
    without that key. *)
Theorem unknown_key_in_json_body_changes_nothing :
  forall model declared fields (d : gmap string pyval) k v,
    d <> ∅ ->
    ~ In k FEATURES ->
    predict model {| is_json := declared;
                     parsed_json := Some (<[k := v]> d);
                     form := fields |}
    = predict model {| is_json := declared;
                       parsed_json := Some d;
                       form := fields |}.
Proof.
  intros model declared fields d k v Hd Hk.
  destruct declared.
  - assert (Hd' : <[k := v]> d <> ∅) by apply insert_non_empty.
    assert (Hsame : build_feature_vector_from_json (<[k := v]> d)
                    = build_feature_vector_from_json d).
    { apply json_encoder_ext. intros feat Hin. unfold json_slot.
      rewrite lookup_insert_ne; [reflexivity|]. intros ->. contradiction. }
    unfold predict. rewrite !try_body_run. cbv zeta.
    unfold encode_request, get_json_silent, error_response.
    cbn [is_json parsed_json form].
    rewrite (truthy_nonempty _ Hd), (truthy_nonempty _ Hd'), Hsame.
    reflexivity.
  - reflexivity.
Qed.

(** X12. A JSON body that is not empty but has no schema key is still
    handled on the JSON branch: the classifier gets 38 zeros, and the form
    fields of the request are not read. *)
Theorem json_body_without_schema_keys_is_all_zeros :
  forall model fields (d : gmap string pyval),
    d <> ∅ ->
    (forall feat, In feat FEATURES -> d !! feat = None) ->
    let req := {| is_json := true; parsed_json := Some d;
                  form := fields |} in
    encode_request req = Ok (repeat f_zero 38) /\
    exists rest,
      snd (predict model req)
      = CallJsonEncoder :: CallPredict (repeat f_zero 38) :: rest.
Proof.
  intros model fields d Hd Hnone req.
  assert (Henc : encode_request req = Ok (repeat f_zero 38)).
  { unfold encode_request, req, get_json_silent. cbn [is_json parsed_json].
    rewrite (truthy_nonempty _ Hd). now apply json_without_schema_keys. }
  split; [exact Henc|].
  rewrite predict_trace, try_body_run. cbv zeta. rewrite Henc.
  assert (Ht : truthy (get_json_silent req) = true)
    by (apply (truthy_nonempty _ Hd)).
  rewrite Ht.
  destruct (model_predict model (repeat f_zero 38)); [|eauto].
  destruct (model_predict_proba model (repeat f_zero 38)); eauto.
Qed.

End HandlerProperties.

(** ** Start-up *)

Section PortProperties.
Import Char Str FloatSyntax IntSyntax.

Lemma digit_facts (c : ascii) :
  Py_ISDIGIT c = true ->
  Py_ISSPACE c = false /\ code_is 45 c = false /\ code_is 43 c = false /\
  code_is 95 c = false /\ (ord c <? 128)%N = true.
Proof.
  destruct c as [[] [] [] [] [] [] [] []]; vm_compute; intros H;
    try discriminate H; auto.
Qed.

Lemma scan_all_digits (prev : ascii) (ds : list ascii) :
  Forall (fun c => Py_ISDIGIT c = true) ds ->
  code_is 95 prev = false ->
  scan_digits prev ds = Some (ds, []).
Proof.
  intros H; revert prev; induction H as [|c ds Hc _ IH]; intros prev Hprev;
    simpl.
  - now rewrite Hprev.
  - destruct (digit_facts c Hc) as [_ [_ [_ [Hus _]]]].
    rewrite Hus, Hc, (IH c Hus). reflexivity.
Qed.

Lemma digits_are_ascii (ds : list ascii) :
  Forall (fun c => Py_ISDIGIT c = true) ds -> is_ascii ds = true.
Proof.
  induction 1 as [|c ds Hc _ IH]; simpl; [reflexivity|].
  destruct (digit_facts c Hc) as [_ [_ [_ [_ Hlt]]]]. now rewrite Hlt.
Qed.

Lemma long_from_digits (ds : list ascii) :
  ds <> [] ->
  Forall (fun c => Py_ISDIGIT c = true) ds ->
  (List.length ds <= max_str_digits)%nat ->
  long_from_string ds = Some (Z.of_N (digits_value ds)) /\
  long_from_string ("-"%char :: ds) = Some (- Z.of_N (digits_value ds))%Z.
Proof.
  intros Hne Hds Hlen.
  assert (Hscan := scan_all_digits (chr 0) ds Hds eq_refl).
  assert (Hlim : (max_str_digits <? List.length ds)%nat = false)
    by (apply Nat.ltb_ge; exact Hlen).
  destruct ds as [|c r]; [contradiction|].
  assert (Hc : Py_ISDIGIT c = true) by (now inversion Hds).
  destruct (digit_facts c Hc) as [Hsp [Hm [Hp [Hus _]]]].
  split; unfold long_from_string.
  - cbn [drop_while]. rewrite Hsp. unfold parse_sign. rewrite Hm, Hp, Hus.
    rewrite Hscan. cbn [is_nil]. rewrite Hlim. reflexivity.
  - cbn [drop_while]. change (Py_ISSPACE "-"%char) with false. cbv iota.
    unfold parse_sign. change (code_is 45 "-"%char) with true. cbv iota.
    rewrite Hus, Hscan. cbn [is_nil]. rewrite Hlim. reflexivity.
Qed.

(** X13. Without [PORT] the server listens on 5000. With [PORT] set to a
    string of 1 to 4300 decimal digits it listens on the number they
    write; a minus sign before them gives the negative number: the value
    is not checked against the range of ports. *)
Theorem listen_port_reads_decimal_digits :
  listen_port None = Some 5000%Z /\
  forall ds,
    ds <> [] ->
    Forall (fun c => Py_ISDIGIT c = true) ds ->
    (List.length ds <= 4300)%nat ->
    listen_port (Some (string_of_list_ascii ds))
    = Some (Z.of_N (digits_value ds)) /\
    listen_port (Some (string_of_list_ascii ("-"%char :: ds)))
    = Some (- Z.of_N (digits_value ds))%Z.
Proof.
  split; [reflexivity|]. intros ds Hne Hds Hlen.
  destruct (long_from_digits ds Hne Hds Hlen) as [H1 H2].
  unfold listen_port, parse_int.
  rewrite !list_ascii_of_string_of_list_ascii.
  unfold transform_decimal_and_space.
  assert (Ha : is_ascii ds = true) by (now apply digits_are_ascii).
  assert (Ha' : is_ascii ("-"%char :: ds) = true)
    by (unfold is_ascii in *; simpl; exact Ha).
  rewrite Ha, Ha'. now split.
Qed.

Lemma separator_starts_no_int (c : ascii) (r : list ascii) :
  Py_ISSPACE c || between 28 31 c = true -> Py_ISSPACE c = false ->
  long_from_string (c :: r) = None.
Proof.
  intros H. apply blank_cases in H.
  rewrite <- (ascii_N_embedding c).
  change (N_of_ascii c) with (ord c).
  repeat (destruct H as [<- | H];
          [intros Hsp;
           first [vm_compute in Hsp; discriminate Hsp
                 | vm_compute; reflexivity]|]).
  destruct H.
Qed.

Lemma blanks_are_no_int (t : list ascii) :
  Forall (fun c => Py_ISSPACE c || between 28 31 c = true) t ->
  long_from_string t = None.
Proof.
  intros Ht.
  destruct (drop_while Py_ISSPACE t) as [|c r] eqn:Hdw.
  - unfold long_from_string. now rewrite Hdw.
  - assert (Hsp : Py_ISSPACE c = false)
      by (exact (drop_while_starts _ _ _ _ Hdw)).
    assert (Hc : Py_ISSPACE c || between 28 31 c = true).
    { rewrite List.Forall_forall in Ht. apply Ht.
      destruct (drop_while_split Py_ISSPACE t) as [q [Hq _]].
      rewrite Hq, Hdw. apply in_or_app. right. now left. }
    rewrite <- (separator_starts_no_int c r Hc Hsp).
    unfold long_from_string. rewrite Hdw. cbn [drop_while]. now rewrite Hsp.
Qed.

(** X14. A [PORT] that is set but empty, or made of white space only, is
    not replaced by the default: [int] raises [ValueError] and no port is
    chosen. *)
Theorem blank_port_is_an_error :
  forall s,
    Forall (fun c => Py_UNICODE_ISSPACE c = true) (list_ascii_of_string s) ->
    listen_port (Some s) = None.
Proof.
  intros s Hs. unfold listen_port, parse_int. apply blanks_are_no_int.
  unfold transform_decimal_and_space.
  destruct (is_ascii (list_ascii_of_string s)) eqn:Hasc.
  - unfold is_ascii in Hasc. rewrite List.forallb_forall in Hasc.
    rewrite List.Forall_forall in Hs |- *. intros c Hin.
    apply unicode_space_below_128; auto.
  - destruct (transform_loop_blank (list_ascii_of_string s) [] Hs)
      as [t [Et Ht]].
    rewrite app_nil_r in Et. simpl in Et. rewrite app_nil_r in Et.
    now rewrite Et.
Qed.

End PortProperties.

(** ** The claims on concrete inputs *)

Import Char Str FloatSyntax Exact.

(** C1, as stated, fails: the vector of the empty form, and of the empty
    JSON object, has 38 positions, not 37. *)
Lemma C1_counterexample_vector_of_38 :
  exists v w,
    build_feature_vector_from_form [] = Ok v /\
    build_feature_vector_from_json ∅ = Ok w /\
    List.length v = 38%nat /\ List.length w = 38%nat /\
    List.length v <> 37%nat /\ List.length w <> 37%nat.
Proof.
  exists (repeat zero 38), (repeat zero 38).
  repeat split; try discriminate; reflexivity.
Qed.

Lemma C1_witness :
  build_feature_vector_from_json (<["Fever" := PBool true]> ∅)
    = Ok (repeat zero 9 ++ one :: repeat zero 28) /\
  List.length (repeat zero 9 ++ one :: repeat zero 28) = 38%nat /\
  Forall2
    (fun feat x =>
       np_float (json_slot (<["Fever" := PBool true]> ∅) feat) = Ok x)
    FEATURES (repeat zero 9 ++ one :: repeat zero 28).
Proof.
  assert (H : build_feature_vector_from_json (<["Fever" := PBool true]> ∅)
              = Ok (repeat zero 9 ++ one :: repeat zero 28))
    by (reflexivity).
  split; [exact H|].
  exact (proj2 (proj2 C1_vector_has_one_position_per_slot) _ _ H).
Defined.

Lemma C2_witness :
  FEATURES !! 0%nat = Some "Sex" /\
  exists v, build_feature_vector_from_form [("Sex", "Male")] = Ok v /\
            v !! 0%nat = Some (form_slot_spec [("Sex", "Male")] "Sex").
Proof.
  split; [reflexivity|].
  exact (proj1 C2_form_encoder_slot_rule [("Sex", "Male")] 0%nat "Sex"
           eq_refl).
Defined.

(** C3, as stated, fails: a mapping that has "Birth Year", with a value
    that is no number, gets no vector at all. *)
Lemma C3_counterexample_no_vector :
  (<["Birth Year" := PStr "unknown"]> ∅ : gmap string pyval) !! "Birth Year"
    = Some (PStr "unknown") /\
  build_feature_vector_from_json (<["Birth Year" := PStr "unknown"]> ∅)
    = Raise (Exn ValueError "could not convert string to float: 'unknown'").
Proof. split; reflexivity. Qed.

Lemma C3_witness :
  build_feature_vector_from_json (<["Fever" := PStr " 1e0 "]> ∅)
    = Ok (repeat zero 9 ++ one :: repeat zero 28) /\
  FEATURES !! 9%nat = Some "Fever" /\
  exists x, (repeat zero 9 ++ one :: repeat zero 28) !! 9%nat = Some x /\
            np_float (PStr " 1e0 ") = Ok x.
Proof.
  assert (H : build_feature_vector_from_json (<["Fever" := PStr " 1e0 "]> ∅)
              = Ok (repeat zero 9 ++ one :: repeat zero 28))
    by (reflexivity).
  split; [exact H|]. split; [reflexivity|].
  exact (proj1 C3_json_encoder_slot_rule _ _ 9%nat "Fever" H eq_refl).
Defined.

(** C4, as stated, fails: [float] rejects the string U+001F "1", which
    therefore reaches the lexical table, and there it matches the entry
    "1" of the first row. *)
Lemma C4_counterexample_unit_separator :
  parse unit_separator_one = None /\
  lower (strip unit_separator_one) = "1" /\
  in_tuple (lower (strip unit_separator_one)) ["male"; "m"; "1"] = true /\
  build_feature_vector_from_form [("Sex", unit_separator_one)]
    = Ok (one :: repeat zero 37).
Proof. repeat split; reflexivity. Qed.

Lemma C4_witness :
  parse unit_separator_one = None /\
  lower (strip unit_separator_one) = "1" /\
  exists c, In c (list_ascii_of_string unit_separator_one) /\
            between 28 31 c = true.
Proof.
  split; [reflexivity|]. split; [reflexivity|].
  exact (proj2 (proj2 (proj2 C4_digit_entries_of_the_lexical_table))
           unit_separator_one eq_refl (or_introl eq_refl)).
Defined.

(** C5, as stated, fails: for the value "abc" the JSON encoder itself
    raises, and the handler answers without calling the classifier. *)
Lemma C5_counterexample_encoder_raises :
  build_feature_vector_from_json (<["Sex" := PStr "abc"]> ∅)
    = Raise (Exn ValueError "could not convert string to float: 'abc'") /\
  predict (constant_model 1) (json_request (<["Sex" := PStr "abc"]> ∅))
    = (Jsonify
         [("error", JString "could not convert string to float: 'abc'")] 400,
       [CallJsonEncoder]).
Proof. split; reflexivity. Qed.

Lemma C5_witness :
  In "Fever" FEATURES /\
  (<["Fever" := PStr "high"]> ∅ : gmap string pyval) !! "Fever"
    = Some (PStr "high") /\
  parse "high" = None /\
  exists e,
    build_feature_vector_from_json (<["Fever" := PStr "high"]> ∅) = Raise e /\
    forall model req,
      get_json_silent req = Some (<["Fever" := PStr "high"]> ∅) ->
      predict model req = (error_response req e, [CallJsonEncoder]).
Proof.
  assert (Hin : In "Fever" FEATURES) by (simpl; tauto).
  split; [exact Hin|]. split; [reflexivity|]. split; [reflexivity|].
  exact (C5_unconvertible_value_raises_in_the_encoder
           (<["Fever" := PStr "high"]> ∅) "Fever" "high" Hin eq_refl eq_refl).
Defined.

(** C8, as stated, fails: a rendered page shows the probability rounded to
    two decimals, so two different probabilities give the same page. *)
Lemma C8_counterexample_rounded_probability :
  fst (predict (constant_model (121 # 1000)) (form_request []))
    = RenderTemplate "index.html"
        "You most likely have contracted COVID-19 (Probability: 0.12)" /\
  fst (predict (constant_model (124 # 1000)) (form_request []))
    = fst (predict (constant_model (121 # 1000)) (form_request [])) /\
  XFinite false (121 # 1000) <> XFinite false (124 # 1000).
Proof. split; [reflexivity|]. split; [reflexivity|discriminate]. Qed.

Lemma C8_witness :
  try_body (constant_model (1 # 2)) (form_request [])
    = (Ok (RenderTemplate "index.html"
             "You most likely have contracted COVID-19 (Probability: 0.50)"),
       [CallFormEncoder; CallPredict (repeat zero 38);
        CallPredictProba (repeat zero 38)]) /\
  exists X pred proba,
    encode_request (form_request []) = Ok X /\
    model_predict (constant_model (1 # 2)) X = Ok pred /\
    model_predict_proba (constant_model (1 # 2)) X = Ok proba /\
    fst (predict (constant_model (1 # 2)) (form_request []))
      = RenderTemplate "index.html"
          "You most likely have contracted COVID-19 (Probability: 0.50)" /\
    RenderTemplate "index.html"
      "You most likely have contracted COVID-19 (Probability: 0.50)"
    = (if truthy (get_json_silent (form_request []))
          && is_json (form_request [])
       then Jsonify [("prediction", JString (message_of pred));
                     ("probability", JNumber proba)] 200
       else RenderTemplate "index.html"
              (message_of pred ++ " (Probability: "
                 ++ format_2f proba ++ ")")).
Proof.
  assert (H : try_body (constant_model (1 # 2)) (form_request [])
    = (Ok (RenderTemplate "index.html"
             "You most likely have contracted COVID-19 (Probability: 0.50)"),
       [CallFormEncoder; CallPredict (repeat zero 38);
        CallPredictProba (repeat zero 38)]))
    by (reflexivity).
  split; [exact H|].
  exact (proj2 (proj2 C8_response_reports_label_and_probability) _ _ _ _ H).
Defined.

Lemma C9_witness :
  encode_request (json_request (<["Sex" := PStr "abc"]> ∅))
    = Raise (Exn ValueError "could not convert string to float: 'abc'") /\
  fst (predict (constant_model 1) (json_request (<["Sex" := PStr "abc"]> ∅)))
    = Jsonify
        [("error", JString "could not convert string to float: 'abc'")] 400.
Proof.
  assert (H : encode_request (json_request (<["Sex" := PStr "abc"]> ∅))
    = Raise (Exn ValueError "could not convert string to float: 'abc'"))
    by (reflexivity).
  split; [exact H|].
  exact (proj1 C9_exceptions_become_error_responses (constant_model 1) _ _
           (or_introl H)).
Defined.

Lemma C10_witness :
  exists v,
    build_feature_vector_from_form [("Sex", "Male")] = Ok v /\
    (v !! 0%nat = Some f_one \/ v !! 0%nat = Some f_zero).
Proof.
  destruct (C10_form_encoder_total [("Sex", "Male")]) as [v [Hv H]].
  exists v. split; [exact Hv|].
  apply (H 0%nat "Sex" "Male"); [reflexivity|reflexivity|discriminate|].
  reflexivity.
Defined.


(** ** The further properties on concrete inputs *)

Ltac schema_cases H :=
  simpl in H; repeat (destruct H as [<- | H]; [reflexivity|]); destruct H.

Lemma age_is_no_feature : ~ In "Age" FEATURES.
Proof.
  intros H. simpl in H.
  repeat (destruct H as [H | H]; [discriminate H|]). exact H.
Defined.

Lemma form_encoder_ignores_unknown_and_repeated_fields_witness :
  (~ In "Age" FEATURES /\
   build_feature_vector_from_form ([("Sex", "Male")] ++ ("Age", "30") :: [])
   = build_feature_vector_from_form ([("Sex", "Male")] ++ [])) /\
  (form_get [("Sex", "Male")] "Sex" = Some "Male" /\
   build_feature_vector_from_form
     ([("Sex", "Male")] ++ ("Sex", "Female") :: [])
   = build_feature_vector_from_form ([("Sex", "Male")] ++ [])).
Proof.
  split; split.
  - exact age_is_no_feature.
  - exact (proj1 form_encoder_ignores_unknown_and_repeated_fields
             [("Sex", "Male")] [] "Age" "30" age_is_no_feature).
  - reflexivity.
  - exact (proj2 form_encoder_ignores_unknown_and_repeated_fields
             [("Sex", "Male")] [] "Sex" "Female" "Male" eq_refl).
Defined.

Lemma json_and_form_encoders_agree_on_strings_witness :
  (forall feat, In feat FEATURES ->
     (<["Fever" := PStr "1.5"]> ∅ : gmap string pyval) !! feat
     = PStr <$> form_get [("Fever", "1.5")] feat) /\
  build_feature_vector_from_json (<["Fever" := PStr "1.5"]> ∅)
  = Ok (repeat zero 9 ++ XFinite false (3 # 2) :: repeat zero 28) /\
  build_feature_vector_from_form [("Fever", "1.5")]
  = Ok (repeat zero 9 ++ XFinite false (3 # 2) :: repeat zero 28).
Proof.
  assert (H1 : forall feat, In feat FEATURES ->
     (<["Fever" := PStr "1.5"]> ∅ : gmap string pyval) !! feat
     = PStr <$> form_get [("Fever", "1.5")] feat)
    by (intros feat Hin; schema_cases Hin).
  assert (H2 : build_feature_vector_from_json (<["Fever" := PStr "1.5"]> ∅)
               = Ok (repeat zero 9 ++ XFinite false (3 # 2) :: repeat zero 28))
    by reflexivity.
  split; [exact H1|]. split; [exact H2|].
  exact (json_and_form_encoders_agree_on_strings _ _ _ H1 H2).
Defined.

Lemma input_without_schema_keys_gives_zeros_witness :
  (forall feat, In feat FEATURES ->
     (<["Age" := PInt 30]> ∅ : gmap string pyval) !! feat = None) /\
  build_feature_vector_from_json (<["Age" := PInt 30]> ∅)
  = Ok (repeat f_zero 38) /\
  (forall feat, In feat FEATURES -> form_get [("Age", "30")] feat = None) /\
  build_feature_vector_from_form [("Age", "30")] = Ok (repeat f_zero 38).
Proof.
  assert (H1 : forall feat, In feat FEATURES ->
     (<["Age" := PInt 30]> ∅ : gmap string pyval) !! feat = None)
    by (intros feat Hin; schema_cases Hin).
  assert (H2 : forall feat, In feat FEATURES ->
                            form_get [("Age", "30")] feat = None)
    by (intros feat Hin; schema_cases Hin).
  split; [exact H1|].
  split; [exact (proj1 input_without_schema_keys_gives_zeros _ H1)|].
  split; [exact H2|].
  exact (proj2 input_without_schema_keys_gives_zeros _ H2).
Defined.

Lemma form_digit_fields_agree_on_both_routes_witness :
  (lower (strip " 1 ") = "1" /\
   exists v, build_feature_vector_from_form [("Sex", " 1 ")] = Ok v /\
             v !! 0%nat = Some f_one) /\
  (lower (strip unit_separator_one) = "1" /\
   exists v,
     build_feature_vector_from_form [("Sex", unit_separator_one)] = Ok v /\
     v !! 0%nat = Some f_one) /\
  (lower (strip "0") = "0" /\
   exists v, build_feature_vector_from_form [("Fever", "0")] = Ok v /\
             v !! 9%nat = Some f_zero).
Proof.
  split; [|split]; (split; [reflexivity|]).
  - exact (proj1 (form_digit_fields_agree_on_both_routes
                    [("Sex", " 1 ")] 0%nat "Sex" " 1 " eq_refl eq_refl)
             eq_refl).
  - exact (proj1 (form_digit_fields_agree_on_both_routes
                    [("Sex", unit_separator_one)] 0%nat "Sex"
                    unit_separator_one eq_refl eq_refl)
             eq_refl).
  - exact (proj2 (form_digit_fields_agree_on_both_routes
                    [("Fever", "0")] 9%nat "Fever" "0" eq_refl eq_refl)
             eq_refl).
Defined.

Lemma response_format_follows_the_request_witness :
  ((exists text,
       fst (predict (constant_model (1 # 2)) (form_request []))
       = RenderTemplate "index.html" text) /\
   ~ In CallJsonEncoder
       (snd (predict (constant_model (1 # 2)) (form_request [])))) /\
  ((exists pred proba,
       fst (predict (constant_model (1 # 2))
              (json_request (<["Sex" := PInt 1]> ∅)))
       = Jsonify [("prediction", JString (message_of pred));
                  ("probability", JNumber proba)] 200) \/
   (exists e,
       fst (predict (constant_model (1 # 2))
              (json_request (<["Sex" := PInt 1]> ∅)))
       = Jsonify [("error", JString (str_exn e))] 400)).
Proof.
  split.
  - exact (proj1 response_format_follows_the_request
             (constant_model (1 # 2)) (form_request []) eq_refl).
  - exact (proj2 response_format_follows_the_request
             (constant_model (1 # 2)) (json_request (<["Sex" := PInt 1]> ∅))
             (<["Sex" := PInt 1]> ∅) eq_refl eq_refl
             (insert_non_empty _ _ _)).
Defined.

Lemma form_post_gets_a_prediction_when_the_classifier_answers_witness :
  exists pred proba,
    fst (predict (constant_model (1 # 2)) (form_request [("Sex", "Male")]))
    = RenderTemplate "index.html"
        (message_of pred ++ " (Probability: " ++ format_2f proba ++ ")").
Proof.
  apply (form_post_gets_a_prediction_when_the_classifier_answers
           (constant_model (1 # 2)) (form_request [("Sex", "Male")])).
  - reflexivity.
  - intros X _. exists 1%Z. reflexivity.
  - intros X _. exists (XFinite false (1 # 2)). reflexivity.
Defined.

Lemma unknown_key_in_json_body_changes_nothing_witness :
  predict (constant_model (1 # 2))
    {| is_json := true;
       parsed_json := Some (<["Age" := PInt 30]> (<["Sex" := PInt 1]> ∅));
       form := [] |}
  = predict (constant_model (1 # 2))
      {| is_json := true; parsed_json := Some (<["Sex" := PInt 1]> ∅);
         form := [] |}.
Proof.
  exact (unknown_key_in_json_body_changes_nothing (constant_model (1 # 2))
           true [] (<["Sex" := PInt 1]> ∅) "Age" (PInt 30)
           (insert_non_empty _ _ _) age_is_no_feature).
Defined.

Lemma json_body_without_schema_keys_is_all_zeros_witness :
  encode_request
    {| is_json := true; parsed_json := Some (<["Age" := PInt 30]> ∅);
       form := [("Sex", "Male")] |}
  = Ok (repeat f_zero 38) /\
  exists rest,
    snd (predict (constant_model (1 # 2))
           {| is_json := true; parsed_json := Some (<["Age" := PInt 30]> ∅);
              form := [("Sex", "Male")] |})
    = CallJsonEncoder :: CallPredict (repeat f_zero 38) :: rest.
Proof.
  apply (json_body_without_schema_keys_is_all_zeros (constant_model (1 # 2))
           [("Sex", "Male")] (<["Age" := PInt 30]> ∅)).
  - apply insert_non_empty.
  - intros feat Hin. schema_cases Hin.
Defined.

Lemma listen_port_reads_decimal_digits_witness :
  listen_port (Some "8080") = Some 8080%Z /\
  listen_port (Some "-8080") = Some (- 8080)%Z.
Proof.
  apply (proj2 listen_port_reads_decimal_digits
           (list_ascii_of_string "8080")).
  - discriminate.
  - repeat constructor.
  - apply Nat.leb_le. reflexivity.
Defined.

Lemma blank_port_is_an_error_witness :
  listen_port (Some "  ") = None /\ listen_port (Some "") = None.
Proof.
  split; apply blank_port_is_an_error; repeat constructor.
Defined.
